(** * The Scrypted bridge (src/scrypted_bridge.py): device mirror and HTTP facade

    A shallow embedding of the bridge: the global [scrypted_state], the
    Socket.IO handlers that write it, the HTTP handler [do_GET] that reads
    it, the login exchange and the start-up sequence of [main].

    Python dictionaries keep insertion order, and [/devices] returns the
    records in that order, so dictionaries are association lists updated in
    place.  What the network and the Socket.IO library do is an input of the
    model: a fetch oracle for the snapshot requests, an HTTP reply for the
    login, and a script of library callbacks for the socket session. *)

From Stdlib Require Import ZArith Ascii String Strings.Byte Lia.
From stdpp Require Import base option list strings pretty.

Local Open Scope Z_scope.
#[local] Set Warnings "-register-all".

(** ** Python string primitives used by the bridge *)

Module Py.

(** [s.startswith(p)] *)
Definition startswith (p s : string) : bool := String.prefix p s.

(** [s.endswith(suf)]: [suf] is [s] or a suffix of the tail of [s]. *)
Fixpoint endswith (suf s : string) : bool :=
  String.eqb s suf ||
  match s with
  | EmptyString => false
  | String _ s' => endswith suf s'
  end.

(** [sub in s] on two strings: substring test. *)
Fixpoint contains (sub s : string) : bool :=
  String.prefix sub s ||
  match s with
  | EmptyString => false
  | String _ s' => contains sub s'
  end.

(** [c in s] for one character. *)
Fixpoint has_char (c : ascii) (s : string) : bool :=
  match s with
  | EmptyString => false
  | String a s' => Ascii.eqb a c || has_char c s'
  end.

(** [s.split(sep)] for a one-character separator: never empty. *)
Fixpoint split (sep : ascii) (s : string) : list string :=
  match s with
  | EmptyString => [EmptyString]
  | String c s' =>
      if Ascii.eqb c sep then EmptyString :: split sep s'
      else match split sep s' with
           | [] => [String c EmptyString]
           | w :: ws => String c w :: ws
           end
  end.

(** [s.replace(old, '')]: every occurrence of [old], left to right, without
    overlap.  [skip] counts the characters of a match still to drop. *)
Fixpoint remove_all_from (skip : nat) (old s : string) : string :=
  match s with
  | EmptyString => EmptyString
  | String c s' =>
      match skip with
      | S k => remove_all_from k old s'
      | O =>
          if String.prefix old s
          then remove_all_from (Nat.pred (String.length old)) old s'
          else String c (remove_all_from O old s')
      end
  end.

Definition remove_all (old s : string) : string :=
  match old with
  | EmptyString => s
  | _ => remove_all_from O old s
  end.

(** The text of [s] before the first character that satisfies [stop]. *)
Fixpoint before (stop : ascii -> bool) (s : string) : string :=
  match s with
  | EmptyString => EmptyString
  | String c s' => if stop c then EmptyString else String c (before stop s')
  end.

(** [urllib.parse._splitparams(url)[0]]: the url cut at the first [;] that
    comes after the last [/]. *)
Fixpoint splitparams (url : string) : string :=
  match url with
  | EmptyString => EmptyString
  | String c s' =>
      if Ascii.eqb c ";" && negb (has_char "/" s') then EmptyString
      else String c (splitparams s')
  end.


(** [urlparse(target).path] for a request target in origin form: the text
    before the first [?] or [#], without the parameters of its last
    segment.  The other forms of a target (an absolute URI, a leading [//],
    leading control characters, tabs and line ends, brackets in the network
    location) are outside this definition. *)
Definition urlparse_path (target : string) : string :=
  splitparams (before (fun c => Ascii.eqb c "?" || Ascii.eqb c "#") target).


End Py.

(** ** JSON values and insertion-ordered dictionaries *)

(** A dictionary with string keys, in insertion order.  [dict_set] is
    Python's [d[k] = v]: an existing key keeps its place, a new key goes to
    the end. *)
Definition dict (V : Type) : Type := list (string * V).

Fixpoint dict_get {V} (k : string) (d : dict V) : option V :=
  match d with
  | [] => None
  | (k', v) :: d' => if String.eqb k k' then Some v else dict_get k d'
  end.

Fixpoint dict_set {V} (k : string) (v : V) (d : dict V) : dict V :=
  match d with
  | [] => [(k, v)]
  | (k', v') :: d' =>
      if String.eqb k k' then (k, v) :: d' else (k', v') :: dict_set k v d'
  end.

(** [k in d] *)
Definition dict_has {V} (k : string) (d : dict V) : bool :=
  match dict_get k d with Some _ => true | None => false end.

(** [d.keys()], [d.values()] *)
Definition dict_keys {V} (d : dict V) : list string := map fst d.
Definition dict_values {V} (d : dict V) : list V := map snd d.

(** What [json.loads] builds and [json.dumps] prints.  [VFloat m e] is the
    float [m * 2^e]; a device record is the item list of a [VDict]. *)
Inductive value : Type :=
| VNone
| VBool (b : bool)
| VInt (n : Z)
| VFloat (m e : Z)
| VStr (s : string)
| VList (items : list value)
| VDict (items : dict value).

Definition record : Type := dict value.

(** [x in c] for a string [x] and a container [c]: membership in a list
    (an element equal to [x] is the string [x]), substring of a string, key
    of a dictionary; [None] is the [TypeError] Python raises on the rest. *)
Definition py_in (x : string) (c : value) : option bool :=
  match c with
  | VList items =>
      Some (existsb (fun e => match e with
                              | VStr s => String.eqb x s
                              | _ => false
                              end) items)
  | VStr s => Some (Py.contains x s)
  | VDict items => Some (dict_has x items)
  | VNone | VBool _ | VInt _ | VFloat _ _ => None
  end.

(** ** The global state and the Socket.IO handlers that write it *)

Record state : Type := {
  devices : dict record;
  connected : bool;
  token : option string;
  host : option string;
  last_update : value
}.

(** The module-level [scrypted_state]. *)
Definition scrypted_state : state :=
  {| devices := []; connected := false; token := None; host := None;
     last_update := VInt 0 |}.

Definition set_devices (ds : dict record) (s : state) : state :=
  {| devices := ds; connected := connected s; token := token s;
     host := host s; last_update := last_update s |}.

Definition set_connected (b : bool) (s : state) : state :=
  {| devices := devices s; connected := b; token := token s;
     host := host s; last_update := last_update s |}.

Definition set_last_update (t : value) (s : state) : state :=
  {| devices := devices s; connected := connected s; token := token s;
     host := host s; last_update := t |}.

Definition set_login (tok hst : string) (s : state) : state :=
  {| devices := devices s; connected := connected s; token := Some tok;
     host := Some hst; last_update := last_update s |}.

(** One turn of the loop of [on_system_state] over [data.items()]. *)
Definition upsert_entry (ds : dict record) (entry : string * value) : dict record :=
  match entry with
  | (device_id, VDict device_info) =>
      dict_set device_id (dict_set "id" (VStr device_id) device_info) ds
  | _ => ds
  end.

(** [on_system_state(data)]; [now] is what [time.time()] returns. *)
Definition on_system_state (now : value) (data : value) (s : state) : state :=
  match data with
  | VDict items =>
      set_last_update now (set_devices (fold_left upsert_entry items (devices s)) s)
  | _ => s
  end.

(** [on_state_change(device_id, property_name, value)] *)
Definition on_state_change (device_id property_name : string) (v : value)
    (s : state) : state :=
  match dict_get device_id (devices s) with
  | Some device =>
      set_devices (dict_set device_id (dict_set property_name v device) (devices s)) s
  | None => s
  end.

(** The events the Socket.IO client dispatches to the registered handlers. *)
Inductive sio_event : Type :=
| SioConnect
| SioDisconnect
| SioSystemState (now : value) (data : value)
| SioStateChange (device_id property_name : string) (v : value).

Definition handle (s : state) (ev : sio_event) : state :=
  match ev with
  | SioConnect => set_connected true s
  | SioDisconnect => set_connected false s
  | SioSystemState now data => on_system_state now data s
  | SioStateChange device_id property_name v =>
      on_state_change device_id property_name v s
  end.

(** The state after a sequence of events, in arrival order. *)
Definition run (evs : list sio_event) (s : state) : state := fold_left handle evs s.

(** ** The HTTP facade: [ScryptedBridgeHandler.do_GET] *)

(** What a request handler sends: [send_json(data, status)] or
    [send_binary(data, content_type)]. *)
Inductive response : Type :=
| send_json (data : value) (status : Z)
| send_binary (data : list byte) (content_type : string).

(** An f-string field holding [None] or a string. *)
Definition fmt (o : option string) : string := default "None" o.

(** Truth value of a dictionary and of a bytes object: not empty. *)
Definition truthy {A} (l : list A) : bool :=
  match l with [] => false | _ :: _ => true end.

(** The condition of the [/cameras] comprehension:
    ['Camera' in d.get('interfaces', []) or 'VideoCamera' in d.get('interfaces', [])]. *)
Definition is_camera (d : record) : option bool :=
  let interfaces := default (VList []) (dict_get "interfaces" d) in
  a ← py_in "Camera" interfaces;
  if a : bool then Some true else py_in "VideoCamera" interfaces.

(** A list comprehension [[x for x in l if p(x)]] whose condition may raise. *)
Fixpoint select {A} (p : A -> option bool) (l : list A) : option (list A) :=
  match l with
  | [] => Some []
  | x :: l' =>
      b ← p x;
      r ← select p l';
      Some (if b : bool then x :: r else r)
  end.

(** The two snapshot URL patterns, in the order they are tried. *)
Definition snapshot_urls (hst tok : option string) (device_id : string) : list string :=
  [ fmt hst +:+ "/endpoint/@scrypted/core/api/" +:+ fmt tok +:+ "/device/"
      +:+ device_id +:+ "/Camera.getSnapshot";
    fmt hst +:+ "/endpoint/@scrypted/snapshot/public/" +:+ device_id ].

Definition error_body (msg : string) : value := VDict [("error", VStr msg)].

Section Facade.

(** [fetch_with_cookie(url, cookie)]: the bytes read, or [None] when
    [urlopen] or [read] raises. *)
Variable fetch_with_cookie : string -> string -> option (list byte).

(** The [for url in snapshot_urls] loop and the statement after it. *)
Fixpoint try_snapshot_urls (cookie : string) (urls : list string) : response :=
  match urls with
  | [] => send_json (error_body "Could not fetch snapshot") 500
  | url :: rest =>
      match fetch_with_cookie url cookie with
      | Some data =>
          if truthy data && (100 <? length data)%nat
          then send_binary data "image/jpeg"
          else try_snapshot_urls cookie rest
      | None => try_snapshot_urls cookie rest
      end
  end.

(** The snapshot fetch for a device id, with the host and token the
    handler reads from the state. *)
Definition fetch_snapshot (device_id : string) (hst tok : option string) : response :=
  try_snapshot_urls ("login_user_token=" +:+ fmt tok) (snapshot_urls hst tok device_id).

(** [do_GET] on the request target [self.path]; [None] when the handler
    raises instead of sending a response. *)
Definition do_GET (s : state) (target : string) : option response :=
  let path := Py.urlparse_path target in
  if String.eqb path "/status" then
    Some (send_json
            (VDict [("connected", VBool (connected s));
                    ("device_count", VInt (Z.of_nat (length (devices s))));
                    ("last_update", last_update s)]) 200)
  else if String.eqb path "/devices" then
    let devs := dict_values (devices s) in
    Some (send_json
            (VDict [("devices", VList (map VDict devs));
                    ("count", VInt (Z.of_nat (length devs)))]) 200)
  else if String.eqb path "/cameras" then
    cameras ← select is_camera (dict_values (devices s));
    Some (send_json
            (VDict [("cameras", VList (map VDict cameras));
                    ("count", VInt (Z.of_nat (length cameras)))]) 200)
  else if Py.startswith "/device/" path && Py.endswith "/state" path then
    device_id ← Py.split "/" path !! 2%nat;
    match dict_get device_id (devices s) with
    | Some device =>
        if truthy device then Some (send_json (VDict device) 200)
        else Some (send_json (error_body "Device not found") 404)
    | None => Some (send_json (error_body "Device not found") 404)
    end
  else if Py.startswith "/device/" path && Py.endswith "/snapshot" path then
    device_id ← Py.split "/" path !! 2%nat;
    match dict_get device_id (devices s) with
    | Some device =>
        if truthy device then Some (fetch_snapshot device_id (host s) (token s))
        else Some (send_json (error_body "Device not found") 404)
    | None => Some (send_json (error_body "Device not found") 404)
    end
  else Some (send_json (error_body "Unknown endpoint") 404).

End Facade.

(** ** Login, the socket session and [main] *)

(** A raised exception: its class and the argument [str(e)] prints. *)
Record exn : Type := Exn { exn_class : string; exn_arg : value }.

Inductive outcome (A : Type) : Type :=
| Return (a : A)
| Raise (e : exn).
Arguments Return {A} a.
Arguments Raise {A} e.

(** What [urlopen] does with the login request.  [decoded] is
    [json.loads] of the body, [None] when the body is not JSON. *)
Inductive http_reply : Type :=
| Http2xx (decoded : option value)
| HTTPError (code : Z) (body : string) (decoded : option value)
| Broken (e : exn).

(** [login_to_scrypted(host, username, password)], on the reply of the hub. *)
Definition login_to_scrypted (reply : http_reply) : outcome value :=
  match reply with
  | Http2xx None => Raise (Exn "JSONDecodeError" VNone)
  | Http2xx (Some result) =>
      match py_in "error" result with
      | None => Raise (Exn "TypeError" VNone)
      | Some true =>
          match result with
          | VDict items =>
              match dict_get "error" items with
              | Some e => Raise (Exn "Exception" e)
              | None => Raise (Exn "KeyError" (VStr "error"))
              end
          | _ => Raise (Exn "TypeError" VNone)
          end
      | Some false => Return result
      end
  | HTTPError code body (Some (VDict error_json)) =>
      Raise (Exn "Exception"
               (default (VStr ("HTTP " +:+ pretty code)) (dict_get "error" error_json)))
  | HTTPError code body (Some _) => Raise (Exn "AttributeError" VNone)
  | HTTPError code body None =>
      Raise (Exn "Exception" (VStr ("HTTP " +:+ pretty code +:+ ": " +:+ body)))
  | Broken e => Raise e
  end.

(** [login_result.get('authorization', '').replace('Bearer ', '')] *)
Definition token_of (login_result : value) : outcome string :=
  match login_result with
  | VDict items =>
      match default (VStr "") (dict_get "authorization" items) with
      | VStr authorization => Return (Py.remove_all "Bearer " authorization)
      | _ => Raise (Exn "AttributeError" VNone)
      end
  | _ => Raise (Exn "AttributeError" VNone)
  end.

(** What the process does that can be seen from outside, in order. *)
Inductive output : Type :=
| StartThread (port : Z)              (* http_thread.start(), on run_http_server(port) *)
| LogLine (text : string)             (* print(text, file=sys.stderr) *)
| LogError (text : string) (e : exn)  (* print(f"{text}{e}", file=sys.stderr) *)
| PrintJson (v : value)               (* print(json.dumps(v, indent=2)) *)
| PrintError (e : exn).               (* print(json.dumps({"error": str(e)})) *)

(** A handler run by the Socket.IO client: the new state and what it prints. *)
Definition deliver (ev : sio_event) (s : state) : state * list output :=
  (handle s ev,
   match ev with
   | SioConnect => [LogLine "Socket.IO connected"]
   | SioDisconnect => [LogLine "Socket.IO disconnected"]
   | SioSystemState _ (VDict items) =>
       [LogLine ("Updated " +:+ pretty (length items) +:+ " devices")]
   | SioSystemState _ _ | SioStateChange _ _ _ => []
   end).

(** What happens while [connect_socketio] sits in its [try] block: the
    client runs a handler, or the pending [await] ([sio.connect],
    [sio.emit], [asyncio.sleep]) returns, or it raises. *)
Inductive sio_step : Type :=
| Deliver (ev : sio_event)
| Resume
| Throw (e : exn).

(** Whether the coroutine has returned or still waits in its loop. *)
Inductive coroutine : Type := Returned | Pending.

(** The [try] block of [connect_socketio] and its [except] clause. *)
Fixpoint session (script : list sio_step) (s : state) : state * list output * coroutine :=
  match script with
  | [] => (s, [], Pending)
  | Deliver ev :: rest =>
      let '(s1, out1) := deliver ev s in
      let '(s2, out2, c) := session rest s1 in
      (s2, out1 ++ out2, c)
  | Resume :: rest => session rest s
  | Throw e :: _ => (s, [LogError "Socket.IO error: " e], Returned)
  end.

(** What the environment supplies to one run of the process. *)
Record env : Type := {
  login_reply : http_reply;
  HAS_SOCKETIO : bool;
  script : list sio_step
}.

(** [connect_socketio(host, username, password)] *)
Definition connect_socketio (hst : string) (e : env) (s : state)
    : state * list output * coroutine :=
  let logging_in := LogLine ("Logging in to " +:+ hst +:+ "...") in
  match login_to_scrypted (login_reply e) with
  | Raise ex => (s, [logging_in; LogError "Login failed: " ex], Returned)
  | Return login_result =>
      match token_of login_result with
      | Raise ex => (s, [logging_in; LogError "Login failed: " ex], Returned)
      | Return tok =>
          let s1 := set_login tok hst s in
          let logged_in := LogLine "Login successful, got token" in
          if HAS_SOCKETIO e then
            let endpoint := hst +:+ "/endpoint/@scrypted/core/engine.io/api/" in
            let '(s2, out, c) := session (script e) s1 in
            (s2, [logging_in; logged_in;
                  LogLine ("Connecting to " +:+ endpoint +:+ "...")] ++ out, c)
          else
            (set_connected true s1,
             [logging_in; logged_in;
              LogLine "Socket.IO not available, running in limited mode"],
             Returned)
      end
  end.

Inductive mode : Type := mode_full | mode_test.

Record args : Type := {
  arg_host : string;
  arg_username : string;
  arg_password : string;
  arg_port : Z;
  arg_mode : mode
}.

(** The process: the global state, what it has done so far, and its exit
    status once it has ended. *)
Record process : Type := {
  st : state;
  trace : list output;
  exit_status : option Z
}.

(** [main()], after argument parsing. *)
Definition main (a : args) (e : env) : process :=
  match arg_mode a with
  | mode_test =>
      match login_to_scrypted (login_reply e) with
      | Return result =>
          {| st := scrypted_state; trace := [PrintJson result]; exit_status := Some 0 |}
      | Raise ex =>
          {| st := scrypted_state; trace := [PrintError ex]; exit_status := Some 1 |}
      end
  | mode_full =>
      let '(s, out, c) := connect_socketio (arg_host a) e scrypted_state in
      {| st := s;
         trace := StartThread (arg_port a) :: out;
         exit_status := match c with Returned => Some 0 | Pending => None end |}
  end.

Definition is_start (o : output) : bool :=
  match o with StartThread _ => true | _ => false end.

(** The HTTP listener has been started. *)
Definition listener_started (p : process) : bool := existsb is_start (trace p).

(** The facade answers requests: its thread was started and, being a daemon
    thread, lives as long as the process. *)
Definition serving (p : process) : bool :=
  listener_started p && match exit_status p with None => true | Some _ => false end.

(** ** The store with its record objects shared

    The records of [scrypted_state["devices"]] are dictionary objects: the
    store holds references to them, [on_state_change] writes through the
    reference, and [list(... .values())] copies the references, not the
    records.  Here the objects live in a heap, addressed by their index,
    and the store binds a device id to an address.  The two contexts are
    threads under the interpreter lock; a step below is one call that lock
    makes atomic: [list(d.values())], the subscript store of
    [on_state_change], and the C encoder of [json.dumps]. *)

Module Heap.

Record hstate : Type := {
  objects : list record;
  bindings : dict nat
}.

Definition empty : hstate := {| objects := []; bindings := [] |}.

(** Reading an object; an address outside the heap reads as empty. *)
Definition deref (h : hstate) (a : nat) : record := default [] (objects h !! a).

(** One turn of the loop of [on_system_state]: [device_info] is an object
    of its own (the decoder built it), gets its id and is bound. *)
Definition upsert_entry (h : hstate) (entry : string * value) : hstate :=
  match entry with
  | (device_id, VDict device_info) =>
      {| objects := objects h ++ [dict_set "id" (VStr device_id) device_info];
         bindings := dict_set device_id (length (objects h)) (bindings h) |}
  | _ => h
  end.

Definition on_system_state (data : value) (h : hstate) : hstate :=
  match data with
  | VDict items => fold_left upsert_entry items h
  | _ => h
  end.

(** [scrypted_state["devices"][device_id][property_name] = value]: the
    object is changed where it is. *)
Definition on_state_change (device_id property_name : string) (v : value)
    (h : hstate) : hstate :=
  match dict_get device_id (bindings h) with
  | Some a =>
      {| objects := alter (dict_set property_name v) a (objects h);
         bindings := bindings h |}
  | None => h
  end.

(** A sequence of single-property updates, in order. *)
Definition apply_changes (changes : list (string * string * value)) (h : hstate)
    : hstate :=
  fold_left (fun h '(device_id, property_name, v) =>
               on_state_change device_id property_name v h) changes h.

(** The handlers on the heap; connecting and disconnecting touch no record. *)
Definition handle (h : hstate) (ev : sio_event) : hstate :=
  match ev with
  | SioSystemState _ data => on_system_state data h
  | SioStateChange device_id property_name v =>
      on_state_change device_id property_name v h
  | SioConnect | SioDisconnect => h
  end.

Definition run (evs : list sio_event) (h : hstate) : hstate := fold_left handle evs h.

(** [list(scrypted_state["devices"].values())]: a new list of the same objects. *)
Definition list_values (h : hstate) : list nat := dict_values (bindings h).

(** What [json.dumps] reads through a list of references, in the heap of
    the moment it runs. *)
Definition dump (h : hstate) (refs : list nat) : list record := map (deref h) refs.

(** The store as the value-level model sees it. *)
Definition view (h : hstate) : dict record :=
  map (fun '(k, a) => (k, deref h a)) (bindings h).

(** Bound addresses are in the heap and no two bindings share an object. *)
Definition inv (h : hstate) : Prop :=
  NoDup (dict_values (bindings h)) /\
  Forall (fun a => (a < length (objects h))%nat) (dict_values (bindings h)).

End Heap.

(** The events of a sequence of single-property updates. *)
Definition change_events (changes : list (string * string * value)) : list sio_event :=
  map (fun '(device_id, property_name, v) => SioStateChange device_id property_name v)
      changes.

(** ** The per-device reading of an event sequence

    What the final record of one device should be, said device by device:
    start with no record; a snapshot entry for the device that is a mapping
    installs that mapping with its id field set; an incremental event for
    the device overwrites one property of the record, if there is one. *)

Definition install_entry (device_id : string) (acc : option record)
    (entry : string * value) : option record :=
  match entry with
  | (k, VDict attributes) =>
      if String.eqb k device_id
      then Some (dict_set "id" (VStr device_id) attributes)
      else acc
  | _ => acc
  end.

Definition fold_event (device_id : string) (acc : option record) (ev : sio_event)
    : option record :=
  match ev with
  | SioSystemState _ (VDict entries) => fold_left (install_entry device_id) entries acc
  | SioStateChange k property_name v =>
      if String.eqb k device_id
      then option_map (dict_set property_name v) acc
      else acc
  | _ => acc
  end.

Definition folded_record (device_id : string) (evs : list sio_event) : option record :=
  fold_left (fold_event device_id) evs None.

(** ** Properties of the store used in the statements *)

(** The id field of every stored record is its key. *)
Definition id_invariant (s : state) : Prop :=
  forall k r, dict_get k (devices s) = Some r -> dict_get "id" r = Some (VStr k).

(** The states of a running bridge: the initial one, and whatever the
    login of [connect_socketio] (the write of the token and the host) and
    the handlers make of a state of the bridge, in any order and number.
    The [connected = True] of the limited mode is the write of the connect
    handler. *)
Inductive reachable : state -> Prop :=
| reachable_initial : reachable scrypted_state
| reachable_login (tok hst : string) (s : state) :
    reachable s -> reachable (set_login tok hst s)
| reachable_event (ev : sio_event) (s : state) :
    reachable s -> reachable (handle s ev).




(** A fetch the snapshot loop passes over: it raised, or its payload is
    not larger than the threshold of 100 bytes. *)
Definition rejected (fetch : string -> string -> option (list byte))
    (cookie url : string) : Prop :=
  match fetch url cookie with
  | Some data => (length data <= 100)%nat
  | None => True
  end.

(** ** The Ollama bridge (src/ollama_bridge.py)

    The bridge talks to two outside parties: the MCP subprocess, over its
    standard input and output, and the Ollama server, over HTTP.  Both are
    inputs of the model: the lines the subprocess will still write and the
    writes to it that will fail because it is gone, and the function from a
    posted payload to the reply of the server.  The JSON
    parser and printer, [str.strip] and [str.lower] are library functions and
    are taken as they are, as parameters. *)

Module Ollama.

Definition OLLAMA_MODEL : string := "llama3.1".

Definition tool (name description : string) (properties : dict value)
    (required : list value) : value :=
  VDict [("type", VStr "function");
         ("function",
          VDict [("name", VStr name);
                 ("description", VStr description);
                 ("parameters",
                  VDict [("type", VStr "object");
                         ("properties", VDict properties);
                         ("required", VList required)])])].

Definition name_property : string * value :=
  ("name", VDict [("type", VStr "string");
                  ("description", VStr "The exact name of the device as shown in HomeKit")]).

Definition HOMEKIT_TOOLS : value :=
  VList [
    tool "list_devices"
         "List all HomeKit devices in all homes with their names, rooms, types, and reachability status. Call this first to see what devices are available."
         [] [];
    tool "list_rooms" "List all rooms in all HomeKit homes." [] [];
    tool "get_device_state"
         "Get the current state of a HomeKit device (on/off, brightness, color, etc.)."
         [name_property] [VStr "name"];
    tool "control_device"
         "Control a HomeKit device. Use this to turn devices on/off, set brightness, change colors, lock/unlock, or open/close."
         [name_property;
          ("action",
           VDict [("type", VStr "string");
                  ("enum", VList [VStr "on"; VStr "off"; VStr "toggle"; VStr "brightness";
                                  VStr "color"; VStr "lock"; VStr "unlock"; VStr "open";
                                  VStr "close"]);
                  ("description", VStr "The action to perform")]);
          ("value",
           VDict [("description",
                   VStr "Value for the action: brightness (0-100), or color ({hue: 0-360, saturation: 0-100})")])]
         [VStr "name"; VStr "action"] ].

Definition SYSTEM_PROMPT : string :=
"You are a helpful smart home assistant. You can control HomeKit devices.

When the user asks about devices or wants to control them:
1. If you don't know what devices exist, call list_devices first
2. Use the exact device name from the list when calling control_device
3. Be concise in your responses

Available actions for control_device:
- on, off, toggle: for lights, switches, outlets
- brightness: set brightness 0-100 (requires value parameter)
- color: set color (requires value with hue 0-360 and saturation 0-100)
- lock, unlock: for locks
- open, close: for garage doors".

(** *** Python operations on JSON values *)

(** The truth value of an object. *)
Definition py_bool (v : value) : bool :=
  match v with
  | VNone => false
  | VBool b => b
  | VInt n => negb (n =? 0)
  | VFloat m _ => negb (m =? 0)
  | VStr s => negb (String.eqb s "")
  | VList items => truthy items
  | VDict items => truthy items
  end.

Definition type_error : exn := Exn "TypeError" VNone.

(** [k in x] *)
Definition contains (k : string) (x : value) : outcome bool :=
  match py_in k x with
  | Some b => Return b
  | None => Raise type_error
  end.

(** [x[k]] for a string [k] *)
Definition getitem (x : value) (k : string) : outcome value :=
  match x with
  | VDict items =>
      match dict_get k items with
      | Some v => Return v
      | None => Raise (Exn "KeyError" (VStr k))
      end
  | _ => Raise type_error
  end.

(** [x.get(k, dflt)] *)
Definition get (x : value) (k : string) (dflt : value) : outcome value :=
  match x with
  | VDict items => Return (default dflt (dict_get k items))
  | _ => Raise (Exn "AttributeError" VNone)
  end.

(** [x[0]] *)
Definition first (x : value) : outcome value :=
  match x with
  | VList (v :: _) => Return v
  | VStr (String c _) => Return (VStr (String c EmptyString))
  | VList [] | VStr EmptyString => Raise (Exn "IndexError" VNone)
  | VDict _ => Raise (Exn "KeyError" (VInt 0))
  | _ => Raise type_error
  end.

(** [len(x)] *)
Definition len (x : value) : outcome nat :=
  match x with
  | VList items => Return (length items)
  | VDict items => Return (length items)
  | VStr s => Return (String.length s)
  | _ => Raise type_error
  end.

(** The items a [for] loop over [x] visits. *)
Definition iterate (x : value) : outcome (list value) :=
  match x with
  | VList items => Return items
  | VDict items => Return (map VStr (dict_keys items))
  | VStr s => Return (map (fun c => VStr (String c EmptyString)) (list_ascii_of_string s))
  | _ => Raise type_error
  end.

(** *** The world and its monad *)

(** The client and the subprocess as the client sees it: the counter of
    the client, the requests written to the standard input of the process
    so far (each as one line of JSON), the lines it will still write to its
    standard output, whether the write of the request with a given id will
    raise [BrokenPipeError] (the process is gone), and whether it was told
    to end. *)
Record MCPClient : Type := {
  request_id : Z;
  sent : list value;
  pending : list string;
  broken : Z -> bool;
  terminated : bool
}.

(** What the script prints. *)
Inductive console : Type :=
| Say (text : string)                     (* print(text) *)
| SayError (text : string) (e : exn)      (* print(f"{text}{e}") *)
| SayYou (command : string)               (* print(f"You: {command}") *)
| SayJarvis (response : value) (gap : bool) (* print(f"Jarvis: {response}"), with "\n" when gap *)
| Calling (tool_name tool_args : value).  (* print(f"  [Calling {tool_name}({tool_args})]") *)

Record world : Type := {
  mcp : MCPClient;
  posted : list value;
  printed : list console
}.

Definition with_mcp (c : MCPClient) (w : world) : world :=
  {| mcp := c; posted := posted w; printed := printed w |}.

(** A computation that changes the world and returns or raises. *)
Definition M (A : Type) : Type := world -> world * outcome A.

Definition ret {A} (a : A) : M A := fun w => (w, Return a).

Definition lift {A} (o : outcome A) : M A := fun w => (w, o).

Definition bind {A B} (m : M A) (k : A -> M B) : M B :=
  fun w => match m w with
           | (w1, Return a) => k a w1
           | (w1, Raise e) => (w1, Raise e)
           end.

Notation "'let*' x ':=' m 'in' k" := (bind m (fun x => k))
  (at level 10, x pattern, m at level 100, k at level 200).

Definition print (line : console) : M unit :=
  fun w => ({| mcp := mcp w; posted := posted w; printed := printed w ++ [line] |},
            Return tt).

Section Bridge.

(** [json.loads] on a string ([None]: it raises), [json.dumps(_, indent=2)],
    and the reply of the Ollama server to a posted payload, decoded. *)
Variable json_loads : string -> option value.
Variable json_dumps : value -> string.
Variable ollama : value -> outcome value.

Definition loads (text : value) : outcome value :=
  match text with
  | VStr s =>
      match json_loads s with
      | Some v => Return v
      | None => Raise (Exn "JSONDecodeError" VNone)
      end
  | _ => Raise type_error
  end.

(** The request [_send] builds. *)
Definition request (id : Z) (method : string) (params : option value) : value :=
  VDict ([("jsonrpc", VStr "2.0"); ("id", VInt id); ("method", VStr method)]
         ++ match params with
            | Some p => if py_bool p then [("params", p)] else []
            | None => []
            end).

(** What [stdin.write] and [stdin.flush] raise when the process is gone. *)
Definition broken_pipe : exn := Exn "BrokenPipeError" (VStr "[Errno 32] Broken pipe").

(** [MCPClient._send(method, params)]: the counter is incremented first;
    then the request line goes out, unless the write raises, and one line
    is read. *)
Definition _send (method : string) (params : option value) : M value :=
  fun w =>
    let c := mcp w in
    let id := request_id c + 1 in
    if broken c id then
      (with_mcp {| request_id := id;
                   sent := sent c;
                   pending := pending c;
                   broken := broken c;
                   terminated := terminated c |} w,
       Raise broken_pipe)
    else
      let c1 := {| request_id := id;
                   sent := sent c ++ [request id method params];
                   pending := tail (pending c);
                   broken := broken c;
                   terminated := terminated c |} in
      (with_mcp c1 w,
       match pending c with
       | [] => Return VNone
       | response_line :: _ =>
           if String.eqb response_line "" then Return VNone
           else loads (VStr response_line)
       end).

(** [MCPClient._initialize()] *)
Definition _initialize : M unit :=
  let* _ := _send "initialize"
              (Some (VDict [("protocolVersion", VStr "2024-11-05");
                            ("capabilities", VDict []);
                            ("clientInfo", VDict [("name", VStr "ollama-bridge");
                                                  ("version", VStr "1.0.0")])])) in
  let* _ := _send "notifications/initialized" None in
  ret tt.

(** What a started process will do: the lines it will write, and the
    requests (by id) whose write will find it gone. *)
Record subprocess : Type := {
  output_lines : list string;
  pipe_broken : Z -> bool
}.

(** [MCPClient.__init__], once [Popen] has started the process. *)
Definition spawned (proc : subprocess) : MCPClient :=
  {| request_id := 0; sent := []; pending := output_lines proc;
     broken := pipe_broken proc; terminated := false |}.

(** [MCPClient.call_tool(name, arguments)] *)
Definition call_tool (name arguments : value) : M value :=
  let* response :=
    _send "tools/call"
          (Some (VDict [("name", name);
                        ("arguments", if py_bool arguments then arguments else VDict [])])) in
  let no_response := ret (VDict [("error", VStr "No response from MCP")]) in
  if py_bool response then
    let* has_result := lift (contains "result" response) in
    if has_result : bool then
      let* result := lift (getitem response "result") in
      let* content := lift (get result "content" (VList [])) in
      if py_bool content then
        let* n := lift (len content) in
        if (0 <? n)%nat then
          let* item := lift (first content) in
          let* text := lift (get item "text" (VStr "{}")) in
          lift (loads text)
        else no_response
      else no_response
    else no_response
  else no_response.

(** [MCPClient.close()] *)
Definition close : M unit :=
  fun w =>
    (with_mcp {| request_id := request_id (mcp w); sent := sent (mcp w);
                 pending := pending (mcp w); broken := broken (mcp w);
                 terminated := true |} w,
     Return tt).

(** [chat_with_ollama(messages, tools)] *)
Definition chat_with_ollama (messages : list value) (tools : option value) : M value :=
  fun w =>
    let payload :=
      VDict ([("model", VStr OLLAMA_MODEL); ("messages", VList messages);
              ("stream", VBool false)]
             ++ match tools with
                | Some t => if py_bool t then [("tools", t)] else []
                | None => []
                end) in
    ({| mcp := mcp w; posted := posted w ++ [payload]; printed := printed w |},
     ollama payload).

(** The arguments of a tool call as they are passed on: a string is
    decoded, and replaced by [{}] when it cannot be. *)
Definition decode_args (tool_args : value) : value :=
  match tool_args with
  | VStr s => default (VDict []) (json_loads s)
  | _ => tool_args
  end.

Definition tool_message (result : value) : value :=
  VDict [("role", VStr "tool"); ("content", VStr (json_dumps result))].

(** The [for tool_call in ...] loop of [process_command]. *)
Fixpoint tool_loop (tool_calls : list value) (messages : list value) : M (list value) :=
  match tool_calls with
  | [] => ret messages
  | tool_call :: rest =>
      let* function := lift (getitem tool_call "function") in
      let* tool_name := lift (getitem function "name") in
      let* tool_args := lift (get function "arguments" (VDict [])) in
      let tool_args := decode_args tool_args in
      let* _ := print (Calling tool_name tool_args) in
      let* result := call_tool tool_name tool_args in
      tool_loop rest (messages ++ [tool_message result])
  end.

Definition first_messages (user_input : string) : list value :=
  [VDict [("role", VStr "system"); ("content", VStr SYSTEM_PROMPT)];
   VDict [("role", VStr "user"); ("content", VStr user_input)]].

(** [process_command(user_input, mcp_client)] *)
Definition process_command (user_input : string) : M value :=
  let messages := first_messages user_input in
  let* response := chat_with_ollama messages (Some HOMEKIT_TOOLS) in
  let* has_message := lift (contains "message" response) in
  if negb has_message then ret (VStr "Error communicating with Ollama")
  else
    let* assistant_message := lift (getitem response "message") in
    let* has_calls := lift (contains "tool_calls" assistant_message) in
    let* wanted :=
      (if has_calls : bool then lift (getitem assistant_message "tool_calls")
       else ret (VBool false)) in
    if py_bool wanted then
      let* tool_calls := lift (iterate wanted) in
      let* messages := tool_loop tool_calls (messages ++ [assistant_message]) in
      let* final_response := chat_with_ollama messages None in
      let* has_final := lift (contains "message" final_response) in
      if has_final : bool then
        let* final_message := lift (getitem final_response "message") in
        lift (get final_message "content" (VStr "Done."))
      else ret (VStr "Done.")
    else
      lift (get assistant_message "content" (VStr "I'm not sure how to help with that.")).

(** *** [main] *)

Variable strip : string -> string.
Variable lower : string -> string.

(** What [input()] does: a line is read, or the user interrupts. *)
Inductive keyboard : Type :=
| Line (text : string)
| Interrupt.

(** How the loop of the interactive mode ends. *)
Inductive loop_end : Type :=
| Broke                 (* the [break] on quit, exit or q *)
| Interrupted           (* KeyboardInterrupt, caught *)
| Failed (e : exn).     (* any other exception, passed on *)

(** The [while True] loop over the lines typed; at the end of the input
    [input()] raises [EOFError]. *)
Fixpoint interactive (keys : list keyboard) (w : world) : world * loop_end :=
  match keys with
  | [] => (w, Failed (Exn "EOFError" VNone))
  | Interrupt :: _ => (w, Interrupted)
  | Line text :: rest =>
      let user_input := strip text in
      if String.eqb user_input "" then interactive rest w
      else if existsb (String.eqb (lower user_input)) ["quit"; "exit"; "q"]
      then (w, Broke)
      else match process_command user_input w with
           | (w1, Return response) =>
               interactive rest (fst (print (SayJarvis response true) w1))
           | (w1, Raise e) => (w1, Failed e)
           end
  end.

Definition MCP_PATH : string :=
  "/Volumes/X10 Pro/Dev Apps/homeMCP/HomeMCPBridge.app/Contents/MacOS/HomeMCPBridge".

Definition say (lines : list console) (w : world) : world :=
  {| mcp := mcp w; posted := posted w; printed := printed w ++ lines |}.

(** No process: the client of a run in which [Popen] raised. *)
Definition never_started : subprocess :=
  {| output_lines := []; pipe_broken := fun _ => false |}.

(** [main()]: [popen] is what starting the subprocess gives (the process,
    or the exception of [Popen]), [argv] is [sys.argv[1:]], [keys] what is
    typed.  The result is the final world and the exit status. *)
Definition main (popen : outcome subprocess) (argv : list string)
    (keys : list keyboard) : world * Z :=
  let w0 := {| mcp := spawned never_started; posted := [];
               printed := [Say "Connecting to HomeMCPBridge..."] |} in
  let failed e w :=
    (say [SayError "Error connecting to MCP: " e;
          Say ("Make sure HomeMCPBridge is at: " +:+ MCP_PATH)] w, 1) in
  match popen with
  | Raise e => failed e w0
  | Return proc =>
      match _initialize (with_mcp (spawned proc) w0) with
      | (w1, Raise e) => failed e w1
      | (w1, Return _) =>
          let w2 := say [Say "Connected! Ready for commands.
"] w1 in
          match argv with
          | _ :: _ =>
              let command := String.concat " " argv in
              match process_command command (say [SayYou command] w2) with
              | (w3, Return response) =>
                  (fst (close (say [SayJarvis response false] w3)), 0)
              | (w3, Raise _) => (w3, 1)
              end
          | [] =>
              match interactive keys (say [Say "Type 'quit' to exit.
"] w2) with
              | (w3, Broke) => (fst (close w3), 0)
              | (w3, Interrupted) => (fst (close (say [Say "
Goodbye!"] w3)), 0)
              | (w3, Failed _) => (fst (close w3), 1)
              end
          end
      end
  end.

End Bridge.

End Ollama.

(** *** Notions used to state the properties of the bridge *)

(** What one [_send] whose write succeeds does to the world, whatever is
    read back. *)
Definition after_send (method : string) (params : option value) (w : Ollama.world)
    : Ollama.world :=
  let c := Ollama.mcp w in
  Ollama.with_mcp
    {| Ollama.request_id := Ollama.request_id c + 1;
       Ollama.sent := Ollama.sent c
                      ++ [Ollama.request (Ollama.request_id c + 1) method params];
       Ollama.pending := tail (Ollama.pending c);
       Ollama.broken := Ollama.broken c;
       Ollama.terminated := Ollama.terminated c |} w.

(** What one [_send] whose write raises does to the world: the counter has
    the next value, nothing was written and nothing read. *)
Definition after_broken_write (w : Ollama.world) : Ollama.world :=
  let c := Ollama.mcp w in
  Ollama.with_mcp
    {| Ollama.request_id := Ollama.request_id c + 1;
       Ollama.sent := Ollama.sent c;
       Ollama.pending := Ollama.pending c;
       Ollama.broken := Ollama.broken c;
       Ollama.terminated := Ollama.terminated c |} w.

(** Whether the next write to the process will raise. *)
Definition next_write_breaks (w : Ollama.world) : bool :=
  Ollama.broken (Ollama.mcp w) (Ollama.request_id (Ollama.mcp w) + 1).

(** The parameters of the request [call_tool] writes. *)
Definition tool_params (name arguments : value) : option value :=
  Some (VDict [("name", name);
               ("arguments", if Ollama.py_bool arguments then arguments else VDict [])]).

(** The id of a request. *)
Definition id_of (request : value) : option value :=
  match request with
  | VDict items => dict_get "id" items
  | _ => None
  end.

(** The requests carry the ids [base + 1], [base + 2], ... in order. *)
Definition numbered_from (base : Z) (requests : list value) : Prop :=
  map id_of requests
  = map (fun i => Some (VInt (base + Z.of_nat i))) (seq 1 (length requests)).

(** One more than the number of requests written when a write has raised
    ([failed]), that number otherwise. *)
Definition attempts (failed : bool) (requests : list value) : Z :=
  Z.of_nat (length requests) + (if failed then 1 else 0).

(** The k-th request written carries the id k, and the counter of the
    client is the number of requests written, or one more when the last
    write raised. *)
Definition numbered (failed : bool) (c : Ollama.MCPClient) : Prop :=
  Ollama.request_id c = attempts failed (Ollama.sent c) /\
  numbered_from 0 (Ollama.sent c).

(** From [w] to [w']: requests were written with the next ids, one pending
    line was consumed per request written, posts and printed lines were
    added, and nothing else happened; when [failed], one more write was
    tried after them, with the next id, and found the process gone. *)
Definition evolves (failed : bool) (w w' : Ollama.world) : Prop :=
  exists requests posts lines,
    Ollama.sent (Ollama.mcp w') = Ollama.sent (Ollama.mcp w) ++ requests /\
    Ollama.request_id (Ollama.mcp w')
    = Ollama.request_id (Ollama.mcp w) + attempts failed requests /\
    numbered_from (Ollama.request_id (Ollama.mcp w)) requests /\
    Ollama.pending (Ollama.mcp w') = drop (length requests) (Ollama.pending (Ollama.mcp w)) /\
    Ollama.terminated (Ollama.mcp w') = Ollama.terminated (Ollama.mcp w) /\
    Ollama.broken (Ollama.mcp w') = Ollama.broken (Ollama.mcp w) /\
    (failed = true ->
     Ollama.broken (Ollama.mcp w) (Ollama.request_id (Ollama.mcp w')) = true) /\
    Ollama.posted w' = Ollama.posted w ++ posts /\
    Ollama.printed w' = Ollama.printed w ++ lines.

(** The answer of [call_tool] when the process gave nothing to use. *)
Definition no_response : value := VDict [("error", VStr "No response from MCP")].

(** Sequencing of two steps that may raise. *)
Definition and_then {A B} (o : outcome A) (k : A -> outcome B) : outcome B :=
  match o with
  | Return a => k a
  | Raise e => Raise e
  end.

(** What [call_tool] makes of the reply it has read. *)
Definition tool_answer (json_loads : string -> option value) (response : value)
    : outcome value :=
  if Ollama.py_bool response then
    and_then (Ollama.contains "result" response) (fun has_result : bool =>
    if has_result then
      and_then (Ollama.getitem response "result") (fun result =>
      and_then (Ollama.get result "content" (VList [])) (fun content =>
      if Ollama.py_bool content then
        and_then (Ollama.len content) (fun n =>
        if (0 <? n)%nat then
          and_then (Ollama.first content) (fun item =>
          and_then (Ollama.get item "text" (VStr "{}")) (fun text =>
          Ollama.loads json_loads text))
        else Return no_response)
      else Return no_response))
    else Return no_response)
  else Return no_response.

(** The payload of the first request of [process_command] to Ollama, and
    of its second, after the tool calls. *)
Definition first_payload (user_input : string) : value :=
  VDict [("model", VStr Ollama.OLLAMA_MODEL);
         ("messages", VList (Ollama.first_messages user_input));
         ("stream", VBool false);
         ("tools", Ollama.HOMEKIT_TOOLS)].

Definition final_payload (messages : list value) : value :=
  VDict [("model", VStr Ollama.OLLAMA_MODEL);
         ("messages", VList messages);
         ("stream", VBool false)].

(** The world after one more post. *)
Definition after_post (payload : value) (w : Ollama.world) : Ollama.world :=
  {| Ollama.mcp := Ollama.mcp w;
     Ollama.posted := Ollama.posted w ++ [payload];
     Ollama.printed := Ollama.printed w |}.

(** The tool a tool call names, and the tool a request asks for. *)
Definition call_name (tool_call : value) : option value :=
  match Ollama.getitem tool_call "function" with
  | Return function =>
      match Ollama.getitem function "name" with
      | Return name => Some name
      | Raise _ => None
      end
  | Raise _ => None
  end.

Definition request_name (request : value) : option value :=
  match request with
  | VDict items =>
      match dict_get "params" items with
      | Some (VDict params) => dict_get "name" params
      | _ => None
      end
  | _ => None
  end.

(** A computation that only lets the world evolve, whether it returns or
    raises, and that raises [BrokenPipeError] when one of its writes does. *)
Definition steps {A} (m : Ollama.M A) : Prop :=
  forall w, exists failed,
    evolves failed w (fst (m w)) /\
    (failed = true -> snd (m w) = Raise Ollama.broken_pipe).

(** The world in which [main] initializes the client, once [Popen] has
    started the process. *)
Definition start_world (proc : Ollama.subprocess) : Ollama.world :=
  {| Ollama.mcp := Ollama.spawned proc;
     Ollama.posted := [];
     Ollama.printed := [Ollama.Say "Connecting to HomeMCPBridge..."] |}.

(** ** Auxiliary definitions and the inputs of the examples *)

(** The connectivity flag as the connect and disconnect events alone
    decide it. *)
Definition link_flag (evs : list sio_event) (flag : bool) : bool :=
  fold_left (fun b ev => match ev with
                         | SioConnect => true
                         | SioDisconnect => false
                         | _ => b
                         end) evs flag.

(** A world in which the MCP process reads the requests and has closed
    its output. *)
Definition silent_world : Ollama.world :=
  {| Ollama.mcp := Ollama.spawned {| Ollama.output_lines := [];
                                     Ollama.pipe_broken := fun _ => false |};
     Ollama.posted := []; Ollama.printed := [] |}.

(** A world in which the MCP process will write one line. *)
Definition answering_world : Ollama.world :=
  {| Ollama.mcp := Ollama.spawned {| Ollama.output_lines := ["reply"];
                                     Ollama.pipe_broken := fun _ => false |};
     Ollama.posted := []; Ollama.printed := [] |}.

(** A process that answers the first request and is gone before the
    second is written. *)
Definition short_lived : Ollama.subprocess :=
  {| Ollama.output_lines := ["reply"]; Ollama.pipe_broken := fun id => 1 <? id |}.

(** A world in which the MCP process is gone. *)
Definition dead_world : Ollama.world :=
  {| Ollama.mcp := Ollama.spawned {| Ollama.output_lines := [];
                                     Ollama.pipe_broken := fun _ => true |};
     Ollama.posted := []; Ollama.printed := [] |}.

(** A decoder that knows two texts: the line of the process, a tool result
    with one text item, and the text of that item, a list of one device. *)
Definition two_texts (text : string) : option value :=
  if String.eqb text "reply"
  then Some (VDict [("result",
                     VDict [("content",
                             VList [VDict [("type", VStr "text");
                                           ("text", VStr "devices")]])])])
  else if String.eqb text "devices" then Some (VList [VStr "Lamp"])
  else None.

Definition one_text (result : value) : string := "result".

(** Replies of the Ollama server: one without a message, one with a plain
    message, and a server that asks for [list_devices] as long as it is
    offered tools. *)
Definition reply_without_message : dict value := [("error", VStr "model not found")].

Definition plain_message : dict value :=
  [("role", VStr "assistant"); ("content", VStr "Hello.")].

Definition list_devices_call : value :=
  VDict [("function", VDict [("name", VStr "list_devices"); ("arguments", VDict [])])].

Definition calling_message : dict value :=
  [("role", VStr "assistant"); ("tool_calls", VList [list_devices_call])].

Definition final_message : dict value :=
  [("role", VStr "assistant"); ("content", VStr "You have one lamp.")].

Definition ollama_without_message (payload : value) : outcome value :=
  Return (VDict reply_without_message).

Definition ollama_plain (payload : value) : outcome value :=
  Return (VDict [("message", VDict plain_message)]).

Definition ollama_with_tools (payload : value) : outcome value :=
  match Ollama.contains "tools" payload with
  | Return true => Return (VDict [("message", VDict calling_message)])
  | _ => Return (VDict [("message", VDict final_message)])
  end.

(** The run of one command against that server and that process. *)
Definition lights_run : Ollama.world * outcome value :=
  Ollama.process_command two_texts one_text ollama_with_tools "lights?" answering_world.

(** A snapshot entry whose value is a mapping. *)
Definition entry_is_mapping (entry : string * value) : bool :=
  match entry with
  | (_, VDict _) => true
  | _ => false
  end.

(** The store used in the examples: one camera, as the snapshot
    [{"cam1": {"interfaces": ["Camera"], "on": true}}] leaves it. *)
Definition cam1_snapshot : value :=
  VDict [("cam1", VDict [("interfaces", VList [VStr "Camera"]); ("on", VBool true)])].

Definition cam1_state : state :=
  on_system_state (VFloat 1 0) cam1_snapshot scrypted_state.

Definition cam1_heap : Heap.hstate := Heap.on_system_state cam1_snapshot Heap.empty.







(** A hub that answers the first pattern with a 10-byte error page and the
    second with a 50 000-byte payload. *)
Definition two_template_hub (url cookie : string) : option (list byte) :=
  if Py.endswith "/Camera.getSnapshot" url
  then Some (repeat "000"%byte 10)
  else Some (repeat "255"%byte (Z.to_nat 50000)).

(** The reply [{"error": "bad credentials"}] of the login endpoint. *)
Definition bad_credentials : http_reply :=
  Http2xx (Some (VDict [("error", VStr "bad credentials")])).

(** A hub that accepts the login. *)
Definition good_login : http_reply :=
  Http2xx (Some (VDict [("authorization", VStr "Bearer t0k")])).

Definition default_args (m : mode) : args :=
  {| arg_host := "https://hub.local"; arg_username := "user";
     arg_password := "secret"; arg_port := 18765; arg_mode := m |}.

(** The events a script delivers before its first exception. *)
Fixpoint delivered (script : list sio_step) : list sio_event :=
  match script with
  | [] => []
  | Deliver ev :: rest => ev :: delivered rest
  | Resume :: rest => delivered rest
  | Throw _ :: _ => []
  end.

(** Whether an exception escapes into the [try] block of [connect_socketio]. *)
Fixpoint throws (script : list sio_step) : bool :=
  match script with
  | [] => false
  | Throw _ :: _ => true
  | _ :: rest => throws rest
  end.

(** * Proofs *)

(** ** Dictionaries *)

Section DictFacts.
Context {V : Type}.
Implicit Types (d : dict V) (k : string) (v : V).

Lemma dict_get_set k k' v d :
  dict_get k' (dict_set k v d) = if String.eqb k k' then Some v else dict_get k' d.
Proof.
  induction d as [|[k0 v0] d IH]; simpl.
  - rewrite (String.eqb_sym k' k). reflexivity.
  - destruct (String.eqb_spec k k0) as [->|Hne]; simpl.
    + rewrite (String.eqb_sym k' k0). destruct (String.eqb k0 k'); reflexivity.
    + rewrite IH. destruct (String.eqb_spec k' k0) as [->|Hne'].
      * destruct (String.eqb_spec k k0); [contradiction|reflexivity].
      * reflexivity.
Qed.

Lemma dict_get_set_eq k v d : dict_get k (dict_set k v d) = Some v.
Proof. rewrite dict_get_set, String.eqb_refl. reflexivity. Qed.

Lemma dict_get_set_ne k k' v d :
  k <> k' -> dict_get k' (dict_set k v d) = dict_get k' d.
Proof.
  intros Hne. rewrite dict_get_set.
  destruct (String.eqb_spec k k'); [contradiction|reflexivity].
Qed.

Lemma dict_set_nonempty k v d : dict_set k v d <> [].
Proof. destruct d as [|[k0 v0] d]; simpl; [|destruct (String.eqb k k0)]; discriminate. Qed.

Lemma dict_set_length_ge k v d : (length d <= length (dict_set k v d))%nat.
Proof.
  induction d as [|[k0 v0] d IH]; simpl; [lia|].
  destruct (String.eqb k k0); simpl; lia.
Qed.
End DictFacts.

(** ** The store: folding events *)

Lemma devices_set_devices ds s : devices (set_devices ds s) = ds.
Proof. reflexivity. Qed.

Lemma get_fold_upsert id items ds :
  dict_get id (fold_left upsert_entry items ds)
  = fold_left (install_entry id) items (dict_get id ds).
Proof.
  revert ds. induction items as [|[k v] items IH]; intros ds; simpl; [reflexivity|].
  rewrite IH. f_equal.
  destruct v; try reflexivity.
  rewrite dict_get_set.
  destruct (String.eqb_spec k id) as [->|Hne]; reflexivity.
Qed.

Lemma get_handle id s ev :
  dict_get id (devices (handle s ev)) = fold_event id (dict_get id (devices s)) ev.
Proof.
  destruct ev as [| |now data|k p v]; simpl; try reflexivity.
  - destruct data; try reflexivity. simpl. apply get_fold_upsert.
  - unfold on_state_change.
    destruct (dict_get k (devices s)) as [dev|] eqn:Hk; simpl.
    + rewrite dict_get_set.
      destruct (String.eqb_spec k id) as [->|Hne]; [rewrite Hk|]; reflexivity.
    + destruct (String.eqb_spec k id) as [->|Hne]; [rewrite Hk|]; reflexivity.
Qed.

Lemma get_run id evs s :
  dict_get id (devices (run evs s))
  = fold_left (fold_event id) evs (dict_get id (devices s)).
Proof.
  revert s. induction evs as [|ev evs IH]; intros s; simpl; [reflexivity|].
  unfold run in IH. rewrite IH, get_handle. reflexivity.
Qed.

(** C1: for every sequence of events applied to the initially empty store,
    the record held for any device id is the fold of the events in arrival
    order, read for that device: a snapshot entry installs its mapping with
    the id field set, an incremental event overwrites one property. *)
Theorem final_record_is_fold (evs : list sio_event) (device_id : string) :
  dict_get device_id (devices (run evs scrypted_state)) = folded_record device_id evs.
Proof. unfold folded_record. rewrite get_run. reflexivity. Qed.

(** C2: an incremental event for a device id that is not a key of the store
    leaves the whole state as it was. *)
Theorem unknown_device_change_dropped (s : state) (device_id property_name : string)
    (v : value) :
  dict_get device_id (devices s) = None ->
  on_state_change device_id property_name v s = s.
Proof. intros Hnone. unfold on_state_change. rewrite Hnone. reflexivity. Qed.

Lemma unknown_device_change_dropped_witness :
  on_state_change "cam1" "on" (VBool false) scrypted_state = scrypted_state.
Proof. apply unknown_device_change_dropped. reflexivity. Defined.

(** ** The id field *)

Lemma id_invariant_upsert items ds :
  (forall k r, dict_get k ds = Some r -> dict_get "id" r = Some (VStr k)) ->
  forall k r, dict_get k (fold_left upsert_entry items ds) = Some r ->
              dict_get "id" r = Some (VStr k).
Proof.
  revert ds. induction items as [|[k0 v0] items IH]; intros ds Hds; simpl; [exact Hds|].
  apply IH. destruct v0; try exact Hds.
  intros k r. rewrite dict_get_set.
  destruct (String.eqb_spec k0 k) as [->|Hne]; [|apply Hds].
  intros [= <-]. apply dict_get_set_eq.
Qed.

Lemma id_invariant_system_state now data s :
  id_invariant s -> id_invariant (on_system_state now data s).
Proof.
  intros Hinv. destruct data; try exact Hinv.
  unfold id_invariant. simpl. apply id_invariant_upsert. exact Hinv.
Qed.

Lemma id_invariant_state_change device_id property_name v s :
  id_invariant s ->
  property_name <> "id" \/ v = VStr device_id ->
  id_invariant (on_state_change device_id property_name v s).
Proof.
  intros Hinv Hok. unfold on_state_change.
  destruct (dict_get device_id (devices s)) as [dev|] eqn:Hdev; [|exact Hinv].
  intros k r. simpl. rewrite dict_get_set.
  destruct (String.eqb_spec device_id k) as [->|Hne]; [|apply Hinv].
  intros [= <-]. rewrite dict_get_set.
  destruct (String.eqb_spec property_name "id") as [->|Hp].
  - destruct Hok as [Hok| ->]; [contradiction|reflexivity].
  - apply (Hinv k). exact Hdev.
Qed.

Lemma id_invariant_initial : id_invariant scrypted_state.
Proof. intros k r. discriminate. Qed.

(** C3, as stated, fails: an incremental event whose property name is [id]
    overwrites the id field, which then differs from the key. *)
Lemma id_invariant_broken_by_id_change :
  id_invariant cam1_state /\
  ~ id_invariant (on_state_change "cam1" "id" (VStr "other") cam1_state).
Proof.
  split.
  - apply id_invariant_system_state, id_invariant_initial.
  - intros Hinv. specialize (Hinv "cam1" _ eq_refl). discriminate.
Qed.

(** C3, amended: the full-snapshot upsert preserves the invariant that the
    id field of every stored record is its key, and so does an incremental
    event whose property name is not [id] or whose value is the device id. *)
Theorem id_invariant_preserved :
  (forall now data s, id_invariant s -> id_invariant (on_system_state now data s)) /\
  (forall device_id property_name v s,
      id_invariant s ->
      property_name <> "id" \/ v = VStr device_id ->
      id_invariant (on_state_change device_id property_name v s)).
Proof.
  split.
  - apply id_invariant_system_state.
  - apply id_invariant_state_change.
Qed.

Lemma id_invariant_preserved_witness :
  id_invariant cam1_state /\
  id_invariant (on_state_change "cam1" "on" (VBool false) cam1_state).
Proof.
  assert (H0 : id_invariant cam1_state).
  { apply (proj1 id_invariant_preserved), id_invariant_initial. }
  split; [exact H0|].
  apply (proj2 id_invariant_preserved); [exact H0|].
  left. discriminate.
Defined.

(** ** The last-update time *)

Lemma dict_set_length_present {V} k (v x : V) d :
  dict_get k d = Some x -> length (dict_set k v d) = length d.
Proof.
  induction d as [|[k0 v0] d IH]; simpl; [discriminate|].
  destruct (String.eqb k k0); simpl; [reflexivity|].
  intros Hget. rewrite IH; [reflexivity|exact Hget].
Qed.

Lemma last_update_handle ev s :
  last_update (handle s ev)
  = match ev with
    | SioSystemState now (VDict _) => now
    | _ => last_update s
    end.
Proof.
  destruct ev as [| |now data|k p v]; simpl; try reflexivity.
  - destruct data; reflexivity.
  - unfold on_state_change. destruct (dict_get k (devices s)); reflexivity.
Qed.

Lemma status_fields_state_change k p v s :
  connected (on_state_change k p v s) = connected s /\
  length (devices (on_state_change k p v s)) = length (devices s) /\
  last_update (on_state_change k p v s) = last_update s.
Proof.
  unfold on_state_change.
  destruct (dict_get k (devices s)) as [dev|] eqn:Hk; simpl; [|tauto].
  rewrite (dict_set_length_present _ _ _ _ Hk). tauto.
Qed.

Lemma status_fields_changes changes s :
  connected (run (change_events changes) s) = connected s /\
  length (devices (run (change_events changes) s)) = length (devices s) /\
  last_update (run (change_events changes) s) = last_update s.
Proof.
  revert s. induction changes as [|[[k p] v] changes IH]; intros s; simpl; [tauto|].
  destruct (IH (on_state_change k p v s)) as (Hc & Hn & Ht).
  destruct (status_fields_state_change k p v s) as (Hc' & Hn' & Ht').
  unfold run in *. simpl. rewrite Hc, Hn, Ht. tauto.
Qed.

(** C10: only a full-snapshot event whose payload is a mapping changes
    [last_update]; every other event leaves it as it was, so after any
    sequence of incremental events [/status] still reports the old
    [last_update], also when device records have changed. *)
Theorem last_update_only_on_snapshot :
  (forall ev s,
      last_update (handle s ev)
      = match ev with
        | SioSystemState now (VDict _) => now
        | _ => last_update s
        end) /\
  (forall fetch s,
      do_GET fetch s "/status"
      = Some (send_json
                (VDict [("connected", VBool (connected s));
                        ("device_count", VInt (Z.of_nat (length (devices s))));
                        ("last_update", last_update s)]) 200)) /\
  (forall fetch changes s,
      last_update (run (change_events changes) s) = last_update s /\
      do_GET fetch (run (change_events changes) s) "/status" = do_GET fetch s "/status") /\
  devices (run (change_events [("cam1", "on", VBool false)]) cam1_state)
  <> devices cam1_state.
Proof.
  split; [exact last_update_handle|].
  split; [reflexivity|].
  split; [|discriminate].
  intros fetch changes s.
  destruct (status_fields_changes changes s) as (Hc & Hn & Ht).
  split; [exact Ht|].
  unfold do_GET. simpl. rewrite Hc, Hn, Ht. reflexivity.
Qed.

(** ** The camera listing *)









(** ** Request targets *)

Module PyFacts.
Import Py.




Lemma endswith_longer suf s :
  (String.length s < String.length suf)%nat -> endswith suf s = false.
Proof.
  induction s as [|c s IH]; intros Hlen.
  - destruct suf; simpl in *; [lia|reflexivity].
  - cbn [endswith]. rewrite IH by (simpl in Hlen; lia).
    rewrite orb_false_r. apply String.eqb_neq. intros Heq.
    rewrite Heq in Hlen. lia.
Qed.









End PyFacts.

(** ** Single-device routes *)

Lemma startswith_app p s : Py.startswith p (p +:+ s) = true.
Proof.
  unfold Py.startswith. induction p as [|a p IH]; simpl; [destruct s; reflexivity|].
  destruct (ascii_dec a a); [exact IH|contradiction].
Qed.







Lemma run_reachable evs s : reachable s -> reachable (run evs s).
Proof.
  revert s. induction evs as [|ev evs IH]; intros s Hs; simpl; [exact Hs|].
  apply IH, reachable_event, Hs.
Qed.

Lemma cam1_state_reachable : reachable cam1_state.
Proof.
  exact (reachable_event (SioSystemState (VFloat 1 0) cam1_snapshot) _ reachable_initial).
Qed.





(** ** The snapshot fetch *)

Section Snapshot.
Variable fetch : string -> string -> option (list byte).
Variable cookie : string.

Lemma try_rejected url rest :
  rejected fetch cookie url ->
  try_snapshot_urls fetch cookie (url :: rest) = try_snapshot_urls fetch cookie rest.
Proof.
  unfold rejected. simpl. destruct (fetch url cookie) as [data|]; [|reflexivity].
  intros Hlen. replace (100 <? length data)%nat with false.
  - rewrite andb_false_r. reflexivity.
  - symmetry. apply Nat.ltb_ge. exact Hlen.
Qed.

Lemma try_accepted url rest data :
  fetch url cookie = Some data -> (100 < length data)%nat ->
  try_snapshot_urls fetch cookie (url :: rest) = send_binary data "image/jpeg".
Proof.
  intros Hfetch Hlen. simpl. rewrite Hfetch.
  replace (100 <? length data)%nat with true by (symmetry; apply Nat.ltb_lt; exact Hlen).
  destruct data; [simpl in Hlen; lia|reflexivity].
Qed.

Lemma try_first_plausible pre url post data :
  Forall (rejected fetch cookie) pre ->
  fetch url cookie = Some data -> (100 < length data)%nat ->
  try_snapshot_urls fetch cookie (pre ++ url :: post) = send_binary data "image/jpeg".
Proof.
  induction 1 as [|u pre Hu _ IH]; intros Hfetch Hlen.
  - apply try_accepted; assumption.
  - change ((u :: pre) ++ url :: post) with (u :: (pre ++ url :: post)).
    rewrite (try_rejected u _ Hu). apply IH; assumption.
Qed.

Lemma try_exhausted urls :
  Forall (rejected fetch cookie) urls ->
  try_snapshot_urls fetch cookie urls
  = send_json (error_body "Could not fetch snapshot") 500.
Proof.
  induction 1 as [|u urls Hu _ IH]; [reflexivity|].
  rewrite (try_rejected u _ Hu). exact IH.
Qed.
End Snapshot.

(** C4: the snapshot fetch tries the two URL patterns in their fixed order
    and sends the payload of the first whose fetch returns more than 100
    bytes; a pattern whose fetch raises or returns 100 bytes or fewer is
    passed over, and when none is left the answer is the JSON error with
    status 500.  With a 10-byte reply to the first pattern and a
    50 000-byte reply to the second, the second payload is sent. *)
Theorem snapshot_first_plausible
    (fetch : string -> string -> option (list byte))
    (device_id : string) (hst tok : option string) :
  let cookie := "login_user_token=" +:+ fmt tok in
  let first := fmt hst +:+ "/endpoint/@scrypted/core/api/" +:+ fmt tok +:+ "/device/"
                 +:+ device_id +:+ "/Camera.getSnapshot" in
  let second := fmt hst +:+ "/endpoint/@scrypted/snapshot/public/" +:+ device_id in
  let urls := snapshot_urls hst tok device_id in
  let answer := fetch_snapshot fetch device_id hst tok in
  urls = [first; second] /\
  (forall pre url post data,
      urls = pre ++ url :: post ->
      Forall (rejected fetch cookie) pre ->
      fetch url cookie = Some data -> (100 < length data)%nat ->
      answer = send_binary data "image/jpeg") /\
  (Forall (rejected fetch cookie) urls ->
   answer = send_json (VDict [("error", VStr "Could not fetch snapshot")]) 500) /\
  (forall small big,
      fetch first cookie = Some small -> Z.of_nat (length small) = 10 ->
      fetch second cookie = Some big -> Z.of_nat (length big) = 50000 ->
      answer = send_binary big "image/jpeg").
Proof.
  intros cookie first second urls answer.
  split; [reflexivity|]. split; [|split].
  - intros pre url post data Hurls Hpre Hfetch Hlen.
    unfold answer, fetch_snapshot. fold cookie. fold urls. rewrite Hurls.
    apply try_first_plausible; assumption.
  - intros Hall. unfold answer, fetch_snapshot. fold cookie. fold urls.
    apply try_exhausted. exact Hall.
  - intros small big Hsmall Hlen1 Hbig Hlen2.
    unfold answer, fetch_snapshot. fold cookie.
    change (snapshot_urls hst tok device_id) with ([first] ++ second :: []).
    apply try_first_plausible.
    + constructor; [|constructor]. unfold rejected. rewrite Hsmall. lia.
    + exact Hbig.
    + lia.
Qed.

Lemma snapshot_first_plausible_witness :
  fetch_snapshot two_template_hub "cam1" (Some "https://hub.local") (Some "t0k")
  = send_binary (repeat "255"%byte (Z.to_nat 50000)) "image/jpeg".
Proof.
  refine (proj2 (proj2 (proj2
            (snapshot_first_plausible two_template_hub "cam1"
               (Some "https://hub.local") (Some "t0k"))))
            (repeat "000"%byte 10) (repeat "255"%byte (Z.to_nat 50000)) _ _ _ _).
  - reflexivity.
  - reflexivity.
  - lazy -[repeat Z.to_nat]. reflexivity.
  - rewrite repeat_length. apply Z2Nat.id. lia.
Defined.

(** ** Start-up and the socket session *)

Lemma session_state script s :
  let '(s', _, c) := session script s in
  s' = run (delivered script) s /\
  c = if throws script then Returned else Pending.
Proof.
  revert s. induction script as [|step script IH]; intros s; simpl; [tauto|].
  destruct step as [ev| |e]; simpl.
  - specialize (IH (handle s ev)).
    destruct (session script (handle s ev)) as [[s' out] c]. exact IH.
  - apply IH.
  - tauto.
Qed.

(** Every state a run of [main] ends in, or waits in, is a state of a
    running bridge. *)
Lemma main_reachable a e : reachable (st (main a e)).
Proof.
  unfold main. destruct (arg_mode a).
  - unfold connect_socketio.
    destruct (login_to_scrypted (login_reply e)) as [result|ex]; [|apply reachable_initial].
    destruct (token_of result) as [tok|ex]; [|apply reachable_initial].
    destruct (HAS_SOCKETIO e).
    + pose proof (session_state (script e) (set_login tok (arg_host a) scrypted_state)) as H.
      destruct (session _ _) as [[s' out] c]. destruct H as [-> _]. simpl.
      apply run_reachable, reachable_login, reachable_initial.
    + simpl. apply (reachable_event SioConnect), reachable_login, reachable_initial.
  - destruct (login_to_scrypted _); apply reachable_initial.
Qed.

Lemma login_fails_on_error_payload items e :
  dict_get "error" items = Some e ->
  login_to_scrypted (Http2xx (Some (VDict items))) = Raise (Exn "Exception" e).
Proof.
  intros Hget. unfold login_to_scrypted, py_in, dict_has. rewrite Hget. reflexivity.
Qed.

Lemma login_fails_on_http_error code body decoded :
  exists ex, login_to_scrypted (HTTPError code body decoded) = Raise ex.
Proof. destruct decoded as [[]|]; simpl; eexists; reflexivity. Qed.

(** C5, as stated, fails in the default mode: [main] starts the HTTP
    listener thread before [connect_socketio] logs in, so the listener has
    been started when the login fails. *)
Lemma listener_started_before_failed_login :
  login_to_scrypted bad_credentials = Raise (Exn "Exception" (VStr "bad credentials")) /\
  listener_started
    (main (default_args mode_full)
          {| login_reply := bad_credentials; HAS_SOCKETIO := true; script := [] |})
  = true.
Proof. split; reflexivity. Qed.

(** C5, amended: an error payload and a non-2xx status both make the login
    raise; when it raises, the process reports the error and exits, and the
    facade does not serve afterwards.  In test mode the listener is never
    started and the exit status is 1.  In full mode the listener thread is
    started first, then the failed login is logged and the process ends
    with status 0, the state untouched and no socket connection tried. *)
Theorem failed_login_exits (a : args) (e : env) (ex : exn) :
  login_to_scrypted (login_reply e) = Raise ex ->
  main a e
  = match arg_mode a with
    | mode_test =>
        {| st := scrypted_state; trace := [PrintError ex]; exit_status := Some 1 |}
    | mode_full =>
        {| st := scrypted_state;
           trace := [StartThread (arg_port a);
                     LogLine ("Logging in to " +:+ arg_host a +:+ "...");
                     LogError "Login failed: " ex];
           exit_status := Some 0 |}
    end /\
  serving (main a e) = false /\
  listener_started (main a e)
  = match arg_mode a with mode_test => false | mode_full => true end.
Proof.
  intros Hlogin. unfold main, connect_socketio. rewrite Hlogin.
  destruct (arg_mode a); repeat split; reflexivity.
Qed.

Lemma failed_login_exits_witness :
  serving (main (default_args mode_test)
                {| login_reply := bad_credentials; HAS_SOCKETIO := true; script := [] |})
  = false.
Proof.
  refine (proj1 (proj2 (failed_login_exits (default_args mode_test) _
                          (Exn "Exception" (VStr "bad credentials")) _))).
  reflexivity.
Defined.




(** ** Shared record objects *)

Module HeapFacts.
Lemma dict_get_map {A B} (f : A -> B) k (d : dict A) :
  dict_get k (map (fun '(k', a) => (k', f a)) d) = option_map f (dict_get k d).
Proof.
  induction d as [|[k0 a0] d IH]; simpl; [reflexivity|].
  destruct (String.eqb k k0); [reflexivity|exact IH].
Qed.

Lemma dict_get_In {A} k (a : A) d : dict_get k d = Some a -> In a (dict_values d).
Proof.
  induction d as [|[k0 a0] d IH]; simpl; [discriminate|].
  destruct (String.eqb k k0); [intros [= ->]; left; reflexivity|].
  intros H. right. exact (IH H).
Qed.

Lemma dict_set_map {A B} (f g : A -> B) k a (d : dict A) :
  (forall a', In a' (dict_values d) -> g a' = f a') ->
  map (fun '(k', a') => (k', g a')) (dict_set k a d)
  = dict_set k (g a) (map (fun '(k', a') => (k', f a')) d).
Proof.
  induction d as [|[k0 a0] d IH]; intros Hsame; simpl; [reflexivity|].
  destruct (String.eqb k k0); simpl.
  - f_equal. apply map_ext_in. intros [k' a'] Hin.
    rewrite Hsame; [reflexivity|]. right. apply (in_map snd _ _ Hin).
  - rewrite Hsame by (left; reflexivity). f_equal.
    apply IH. intros a' Hin. apply Hsame. right. exact Hin.
Qed.

Lemma dict_values_set_In {A} k (a x : A) d :
  In x (dict_values (dict_set k a d)) -> x = a \/ In x (dict_values d).
Proof.
  induction d as [|[k0 a0] d IH]; simpl; [intuition congruence|].
  destruct (String.eqb k k0); simpl; [intuition congruence|].
  intros [->|H]; [tauto|]. destruct (IH H); tauto.
Qed.

Lemma dict_values_set_NoDup {A} k (a : A) d :
  NoDup (dict_values d) -> ~ In a (dict_values d) ->
  NoDup (dict_values (dict_set k a d)).
Proof.
  rewrite !NoDup_ListNoDup.
  induction d as [|[k0 a0] d IH]; simpl; intros Hnd Hfresh.
  - constructor; [tauto|constructor].
  - inversion Hnd as [|? ? Hnot Hnd']; subst.
    destruct (String.eqb k k0); simpl.
    + constructor; [tauto|exact Hnd'].
    + constructor; [|apply IH; tauto].
      intros Hin. destruct (dict_values_set_In _ _ _ _ Hin) as [->|Hin']; tauto.
Qed.

(** *** The snapshot handler *)

Lemma inv_upsert h entry : Heap.inv h -> Heap.inv (Heap.upsert_entry h entry).
Proof.
  intros [Hnd Hin]. destruct entry as [k v]. destruct v; try (split; assumption).
  rewrite Forall_forall in Hin.
  assert (Hfresh : ~ In (length (Heap.objects h)) (dict_values (Heap.bindings h))).
  { intros Hmem. apply list_elem_of_In in Hmem.
    specialize (Hin _ Hmem). lia. }
  split; simpl.
  - apply dict_values_set_NoDup; assumption.
  - rewrite Forall_forall. intros a Ha. apply list_elem_of_In in Ha.
    rewrite length_app. simpl.
    destruct (dict_values_set_In _ _ _ _ Ha) as [->|Hold]; [lia|].
    apply list_elem_of_In in Hold. specialize (Hin _ Hold). lia.
Qed.

Lemma deref_app_old h r bs a :
  (a < length (Heap.objects h))%nat ->
  Heap.deref {| Heap.objects := Heap.objects h ++ [r]; Heap.bindings := bs |} a
  = Heap.deref h a.
Proof.
  intros Ha. unfold Heap.deref. simpl. rewrite lookup_app_l by exact Ha. reflexivity.
Qed.

Lemma deref_app_new h r bs :
  Heap.deref {| Heap.objects := Heap.objects h ++ [r]; Heap.bindings := bs |}
             (length (Heap.objects h)) = r.
Proof.
  unfold Heap.deref. simpl. rewrite lookup_app_r by apply Nat.le_refl.
  rewrite Nat.sub_diag. reflexivity.
Qed.

Lemma view_upsert h entry :
  Heap.inv h -> Heap.view (Heap.upsert_entry h entry) = upsert_entry (Heap.view h) entry.
Proof.
  intros [_ Hin]. destruct entry as [k v]. destruct v; try reflexivity.
  unfold Heap.view. simpl.
  rewrite (dict_set_map (Heap.deref h)).
  - rewrite deref_app_new. reflexivity.
  - intros a Ha. apply deref_app_old.
    rewrite Forall_forall in Hin. apply Hin, list_elem_of_In, Ha.
Qed.

Lemma inv_fold_upsert items h :
  Heap.inv h -> Heap.inv (fold_left Heap.upsert_entry items h).
Proof.
  revert h. induction items as [|entry items IH]; intros h Hinv; simpl; [exact Hinv|].
  apply IH, inv_upsert, Hinv.
Qed.

Lemma view_fold_upsert items h :
  Heap.inv h ->
  Heap.view (fold_left Heap.upsert_entry items h)
  = fold_left upsert_entry items (Heap.view h).
Proof.
  revert h. induction items as [|entry items IH]; intros h Hinv; simpl; [reflexivity|].
  rewrite IH by (apply inv_upsert, Hinv). rewrite view_upsert by exact Hinv.
  reflexivity.
Qed.

(** *** The incremental handler *)

Lemma default_alter_eq {A} (d : A) (f : A -> A) (l : list A) a :
  (a < length l)%nat -> default d (alter f a l !! a) = f (default d (l !! a)).
Proof.
  intros Ha. rewrite list_lookup_alter_eq.
  destruct (lookup_lt_is_Some_2 _ _ Ha) as [r ->]. reflexivity.
Qed.

Lemma deref_alter_eq h f a :
  (a < length (Heap.objects h))%nat ->
  Heap.deref {| Heap.objects := alter f a (Heap.objects h);
                Heap.bindings := Heap.bindings h |} a
  = f (Heap.deref h a).
Proof. intros Ha. apply (default_alter_eq [] f (Heap.objects h) a Ha). Qed.

Lemma deref_alter_ne h f a a' :
  a <> a' ->
  Heap.deref {| Heap.objects := alter f a (Heap.objects h);
                Heap.bindings := Heap.bindings h |} a'
  = Heap.deref h a'.
Proof.
  intros Hne. unfold Heap.deref. simpl.
  rewrite list_lookup_alter_ne by exact Hne. reflexivity.
Qed.

(** Writing through the one reference bound to [k] is writing the one
    entry of [k] in the store. *)
Lemma map_update {B} (f g : nat -> B) k a (b : dict nat) :
  List.NoDup (dict_values b) ->
  dict_get k b = Some a ->
  (forall a', a' <> a -> g a' = f a') ->
  map (fun '(k', a') => (k', g a')) b
  = dict_set k (g a) (map (fun '(k', a') => (k', f a')) b).
Proof.
  intros Hnd Hget Hother.
  induction b as [|[k0 a0] b IH]; simpl in *; [discriminate|].
  inversion Hnd as [|? ? Hnot Hnd']; subst.
  destruct (String.eqb_spec k k0) as [->|Hne].
  - injection Hget as ->. f_equal.
    apply map_ext_in. intros [k' a'] Hin. rewrite Hother; [reflexivity|].
    intros ->. apply Hnot. apply (in_map snd _ _ Hin).
  - rewrite Hother.
    + f_equal. apply IH; assumption.
    + intros ->. apply Hnot. apply (dict_get_In _ _ _ Hget).
Qed.

Lemma inv_state_change k p v h :
  Heap.inv h -> Heap.inv (Heap.on_state_change k p v h).
Proof.
  intros Hinv. unfold Heap.on_state_change.
  destruct (dict_get k (Heap.bindings h)); [|exact Hinv].
  destruct Hinv as [Hnd Hin]. split; simpl; [exact Hnd|].
  rewrite length_alter. exact Hin.
Qed.

Lemma view_state_change k p v h s :
  Heap.inv h -> Heap.view h = devices s ->
  Heap.view (Heap.on_state_change k p v h) = devices (on_state_change k p v s).
Proof.
  intros [Hnd Hin] Hview. unfold on_state_change, Heap.on_state_change.
  rewrite <- Hview. unfold Heap.view at 2. rewrite dict_get_map.
  destruct (dict_get k (Heap.bindings h)) as [a|] eqn:Hget; simpl; [|exact Hview].
  unfold Heap.view. simpl.
  rewrite <- (deref_alter_eq h (dict_set p v) a).
  - apply (map_update (Heap.deref h)).
    + apply NoDup_ListNoDup, Hnd.
    + exact Hget.
    + intros a' Hne. apply deref_alter_ne. congruence.
  - rewrite Forall_forall in Hin.
    apply Hin, list_elem_of_In, (dict_get_In _ _ _ Hget).
Qed.

(** *** The heap refines the store *)

Lemma inv_handle h ev : Heap.inv h -> Heap.inv (Heap.handle h ev).
Proof.
  intros Hinv. destruct ev as [| |now data|k p v]; simpl; try exact Hinv.
  - destruct data; try exact Hinv. apply inv_fold_upsert, Hinv.
  - apply inv_state_change, Hinv.
Qed.

Lemma view_handle h s ev :
  Heap.inv h -> Heap.view h = devices s ->
  Heap.view (Heap.handle h ev) = devices (handle s ev).
Proof.
  intros Hinv Hview. destruct ev as [| |now data|k p v]; simpl; try exact Hview.
  - destruct data; try exact Hview. simpl.
    rewrite view_fold_upsert by exact Hinv. rewrite Hview. reflexivity.
  - apply view_state_change; assumption.
Qed.

Lemma refines evs h s :
  Heap.inv h -> Heap.view h = devices s ->
  Heap.inv (Heap.run evs h) /\ Heap.view (Heap.run evs h) = devices (run evs s).
Proof.
  revert h s. induction evs as [|ev evs IH]; intros h s Hinv Hview; simpl; [tauto|].
  apply IH; [apply inv_handle, Hinv|apply view_handle; assumption].
Qed.

Lemma inv_empty : Heap.inv Heap.empty.
Proof. split; constructor. Qed.

(** *** Listing, then dumping later *)

Lemma apply_changes_run changes h :
  Heap.apply_changes changes h = Heap.run (change_events changes) h.
Proof.
  revert h. induction changes as [|[[k p] v] changes IH]; intros h; simpl; [reflexivity|].
  apply IH.
Qed.

Lemma bindings_apply_changes changes h :
  Heap.bindings (Heap.apply_changes changes h) = Heap.bindings h.
Proof.
  revert h. induction changes as [|[[k p] v] changes IH]; intros h; simpl; [reflexivity|].
  rewrite IH. unfold Heap.on_state_change.
  destruct (dict_get k (Heap.bindings h)); reflexivity.
Qed.

Lemma dump_bindings h : Heap.dump h (dict_values (Heap.bindings h)) = dict_values (Heap.view h).
Proof.
  unfold Heap.dump, Heap.view, dict_values. rewrite !List.map_map.
  apply map_ext. intros [k a]. reflexivity.
Qed.

End HeapFacts.

(** C9, as stated, fails: the list that [list()] returns holds the record
    objects of the store, not copies, so an update that runs after the
    call has returned changes what is read through the returned list. *)
Lemma listed_records_change_after_list :
  Heap.inv cam1_heap /\
  Heap.view cam1_heap = devices cam1_state /\
  Heap.dump (Heap.on_state_change "cam1" "on" (VBool false) cam1_heap)
            (Heap.list_values cam1_heap)
  <> Heap.dump cam1_heap (Heap.list_values cam1_heap).
Proof.
  split; [|split].
  - apply (HeapFacts.inv_fold_upsert _ Heap.empty), HeapFacts.inv_empty.
  - reflexivity.
  - discriminate.
Qed.

(** C9, amended: after any history of events, when [list()] is taken and
    any number of single-property updates run before the list is
    serialised, the records read are, for the devices and in the order of
    the listing, the records of the store after all of these updates:
    every update is seen whole or not at all, and updates that run after
    the call has returned are seen. *)
Theorem listing_reads_whole_updates (evs : list sio_event)
    (changes : list (string * string * value)) :
  Heap.dump (Heap.apply_changes changes (Heap.run evs Heap.empty))
            (Heap.list_values (Heap.run evs Heap.empty))
  = dict_values (devices (run (evs ++ change_events changes) scrypted_state)).
Proof.
  destruct (HeapFacts.refines evs Heap.empty scrypted_state HeapFacts.inv_empty eq_refl)
    as [Hinv Hview].
  destruct (HeapFacts.refines (change_events changes) _ _ Hinv Hview) as [_ Hview'].
  unfold Heap.list_values.
  rewrite <- (HeapFacts.bindings_apply_changes changes).
  rewrite HeapFacts.dump_bindings, HeapFacts.apply_changes_run, Hview'.
  unfold run. rewrite fold_left_app. reflexivity.
Qed.

(** ** Further properties of the facade and the store *)



(** The scenario of the specification.  From the empty store, the
    snapshot [{"cam1": {"interfaces": ["Camera"], "on": true}}] makes
    [/devices] and [/cameras] return the one record of [cam1]; the
    incremental event [(cam1, on, false)] then changes that property and
    nothing else. *)
Theorem cam1_scenario :
  let fetch := fun _ _ : string => @None (list byte) in
  let record_with (on : bool) :=
    VDict [("interfaces", VList [VStr "Camera"]); ("on", VBool on); ("id", VStr "cam1")] in
  let s1 := run [SioSystemState (VFloat 1 0) cam1_snapshot] scrypted_state in
  let s2 := run [SioStateChange "cam1" "on" (VBool false)] s1 in
  do_GET fetch s1 "/devices"
  = Some (send_json (VDict [("devices", VList [record_with true]); ("count", VInt 1)]) 200) /\
  do_GET fetch s1 "/cameras"
  = Some (send_json (VDict [("cameras", VList [record_with true]); ("count", VInt 1)]) 200) /\
  do_GET fetch s1 "/device/cam1/state" = Some (send_json (record_with true) 200) /\
  do_GET fetch s2 "/device/cam1/state" = Some (send_json (record_with false) 200).
Proof. repeat split; reflexivity. Qed.

(** X2: after every sequence of events, no two device ids of the store
    share a record object, every bound object exists, and the store read
    through its references is the store of the value-level model. *)
Theorem heap_refines_store (evs : list sio_event) :
  Heap.inv (Heap.run evs Heap.empty) /\
  Heap.view (Heap.run evs Heap.empty) = devices (run evs scrypted_state).
Proof. apply HeapFacts.refines; [apply HeapFacts.inv_empty|reflexivity]. Qed.

(** ** How the handlers compose *)

Ltac len := unfold record, dict in *; simpl in *; lia.

Section MoreDictFacts.
Context {V : Type}.
Implicit Types (d : dict V) (k : string) (v : V).

Lemma dict_keys_set_present k v x d :
  dict_get k d = Some x -> dict_keys (dict_set k v d) = dict_keys d.
Proof.
  induction d as [|[k0 v0] d IH]; simpl; [discriminate|].
  destruct (String.eqb_spec k k0) as [->|Hne]; simpl; [reflexivity|].
  intros Hget. rewrite (IH Hget). reflexivity.
Qed.

Lemma dict_has_set_mono k k' v d :
  dict_has k' d = true -> dict_has k' (dict_set k v d) = true.
Proof.
  unfold dict_has. rewrite dict_get_set.
  destruct (String.eqb k k'); [reflexivity|tauto].
Qed.

Lemma dict_set_set k v1 v2 d : dict_set k v2 (dict_set k v1 d) = dict_set k v2 d.
Proof.
  induction d as [|[k0 v0] d IH]; simpl.
  - rewrite String.eqb_refl. reflexivity.
  - destruct (String.eqb k k0) eqn:Hk; simpl.
    + rewrite String.eqb_refl. reflexivity.
    + rewrite Hk, IH. reflexivity.
Qed.

Lemma dict_set_comm k1 k2 v1 v2 x1 x2 d :
  k1 <> k2 -> dict_get k1 d = Some x1 -> dict_get k2 d = Some x2 ->
  dict_set k1 v1 (dict_set k2 v2 d) = dict_set k2 v2 (dict_set k1 v1 d).
Proof.
  intros Hne. induction d as [|[k0 v0] d IH]; simpl; [discriminate|].
  destruct (String.eqb_spec k1 k0) as [->|H1], (String.eqb_spec k2 k0) as [->|H2]; simpl.
  - contradiction.
  - intros _ _. rewrite String.eqb_refl.
    destruct (String.eqb_spec k2 k0); [contradiction|reflexivity].
  - intros _ _. rewrite String.eqb_refl.
    destruct (String.eqb_spec k1 k0); [contradiction|reflexivity].
  - intros G1 G2.
    destruct (String.eqb_spec k1 k0); [contradiction|].
    destruct (String.eqb_spec k2 k0); [contradiction|].
    rewrite (IH G1 G2). reflexivity.
Qed.
End MoreDictFacts.

Lemma fold_upsert_mono items ds k :
  dict_has k ds = true ->
  dict_has k (fold_left upsert_entry items ds) = true /\
  (length ds <= length (fold_left upsert_entry items ds))%nat.
Proof.
  revert ds. induction items as [|[k0 v0] items IH]; intros ds Hk; simpl.
  - split; [exact Hk|len].
  - destruct v0; try (apply IH; exact Hk).
    destruct (IH (dict_set k0 (dict_set "id" (VStr k0) items0) ds)) as [Hhas Hlen].
    + apply dict_has_set_mono, Hk.
    + split; [exact Hhas|].
      pose proof (dict_set_length_ge k0 (dict_set "id" (VStr k0) items0) ds). len.
Qed.

Lemma handle_mono s ev k :
  dict_has k (devices s) = true ->
  dict_has k (devices (handle s ev)) = true /\
  (length (devices s) <= length (devices (handle s ev)))%nat.
Proof.
  intros Hk. destruct ev as [| |now data|k0 p v]; simpl; try (split; [exact Hk|len]).
  - destruct data; try (split; [exact Hk|len]). simpl. apply fold_upsert_mono, Hk.
  - unfold on_state_change.
    destruct (dict_get k0 (devices s)) as [dev|] eqn:Hget; simpl; [|split; [exact Hk|len]].
    split; [apply dict_has_set_mono, Hk|].
    rewrite (dict_set_length_present _ _ _ _ Hget). len.
Qed.

(** X3: no handler ever removes a device: an id that is a key of the store
    stays a key after any further events, and the number of devices never
    goes down. *)
Theorem devices_never_removed (s : state) (evs : list sio_event) (k : string) :
  dict_has k (devices s) = true ->
  dict_has k (devices (run evs s)) = true /\
  (length (devices s) <= length (devices (run evs s)))%nat.
Proof.
  revert s. induction evs as [|ev evs IH]; intros s Hk; simpl; [split; [exact Hk|len]|].
  destruct (handle_mono s ev k Hk) as [Hk' Hlen].
  destruct (IH (handle s ev) Hk') as [Hk'' Hlen'].
  unfold run in *. split; [exact Hk''|len].
Qed.

Lemma devices_never_removed_witness :
  dict_has "cam1"
    (devices (run [SioDisconnect; SioSystemState (VInt 2) (VDict [("lamp", VDict [])]);
                   SioStateChange "cam1" "on" (VBool false)] cam1_state)) = true.
Proof. exact (proj1 (devices_never_removed cam1_state _ "cam1" eq_refl)). Defined.

(** X4: an incremental event changes one property of one record and
    nothing else: the device ids and their order stay, and every other
    property of every record reads as before. *)
Theorem state_change_touches_one_property (s : state) (k p : string) (v : value)
    (k' p' : string) :
  k' <> k \/ p' <> p ->
  dict_keys (devices (on_state_change k p v s)) = dict_keys (devices s) /\
  (dict_get k' (devices (on_state_change k p v s)) ≫= dict_get p')
  = (dict_get k' (devices s) ≫= dict_get p').
Proof.
  intros Hother. unfold on_state_change.
  destruct (dict_get k (devices s)) as [dev|] eqn:Hget; [|split; reflexivity].
  simpl. split; [apply (dict_keys_set_present _ _ _ _ Hget)|].
  rewrite dict_get_set.
  destruct (String.eqb_spec k k') as [->|Hne]; [|reflexivity].
  rewrite Hget. simpl. rewrite dict_get_set.
  destruct (String.eqb_spec p p') as [->|Hp]; [|reflexivity].
  destruct Hother; contradiction.
Qed.

Lemma state_change_touches_one_property_witness :
  (dict_get "cam1" (devices (on_state_change "cam1" "on" (VBool false) cam1_state))
     ≫= dict_get "interfaces")
  = (dict_get "cam1" (devices cam1_state) ≫= dict_get "interfaces").
Proof.
  refine (proj2 (state_change_touches_one_property cam1_state "cam1" "on" (VBool false)
                   "cam1" "interfaces" _)).
  right. discriminate.
Defined.



(** X6: the last write wins: two incremental events for the same property of
    the same device leave the state the second one alone would leave; in
    particular an event delivered twice has the effect of one delivery. *)
Theorem state_change_last_write_wins (s : state) (k p : string) (v1 v2 : value) :
  on_state_change k p v2 (on_state_change k p v1 s) = on_state_change k p v2 s.
Proof.
  unfold on_state_change.
  destruct (dict_get k (devices s)) as [dev|] eqn:Hget; simpl; [|rewrite Hget; reflexivity].
  rewrite dict_get_set_eq. unfold set_devices. simpl.
  rewrite !dict_set_set. reflexivity.
Qed.

(** X7: incremental events for two different devices commute. *)
Theorem state_changes_commute (s : state) (k1 p1 : string) (v1 : value)
    (k2 p2 : string) (v2 : value) :
  k1 <> k2 ->
  on_state_change k1 p1 v1 (on_state_change k2 p2 v2 s)
  = on_state_change k2 p2 v2 (on_state_change k1 p1 v1 s).
Proof.
  intros Hne. unfold on_state_change.
  destruct (dict_get k1 (devices s)) as [d1|] eqn:H1,
           (dict_get k2 (devices s)) as [d2|] eqn:H2; simpl;
    rewrite ?dict_get_set_ne by congruence; rewrite ?H1, ?H2; try reflexivity.
  unfold set_devices. simpl.
  rewrite (dict_set_comm k1 k2 _ _ d1 d2 _ Hne H1 H2). reflexivity.
Qed.

Lemma state_changes_commute_witness :
  let s := on_system_state (VInt 2) (VDict [("lamp", VDict [])]) cam1_state in
  on_state_change "cam1" "on" (VBool false) (on_state_change "lamp" "on" (VBool true) s)
  = on_state_change "lamp" "on" (VBool true) (on_state_change "cam1" "on" (VBool false) s).
Proof.
  exact (state_changes_commute _ "cam1" "on" (VBool false) "lamp" "on" (VBool true)
           ltac:(discriminate)).
Defined.

(** ** Snapshots *)

Lemma install_entry_absent k (post : dict value) acc :
  dict_has k post = false -> fold_left (install_entry k) post acc = acc.
Proof.
  unfold dict_has. revert acc.
  induction post as [|[k0 v0] post IH]; intros acc; simpl; [reflexivity|].
  rewrite (String.eqb_sym k k0).
  destruct (String.eqb k0 k) eqn:Hk; [discriminate|].
  intros Habs. rewrite (IH _ Habs). destruct v0; reflexivity.
Qed.

(** X8: a full snapshot replaces the record of a device wholesale: when the
    payload holds an entry for [k] that is a mapping, and no later entry
    for [k], the record of [k] afterwards is that mapping with its id field
    set, whatever the store held for [k] before. *)
Theorem snapshot_replaces_record (now : value) (pre post : dict value) (k : string)
    (info : record) (s : state) :
  dict_has k post = false ->
  dict_get k (devices (on_system_state now (VDict (pre ++ (k, VDict info) :: post)) s))
  = Some (dict_set "id" (VStr k) info).
Proof.
  intros Habs. simpl. rewrite get_fold_upsert, fold_left_app. simpl.
  rewrite String.eqb_refl. apply install_entry_absent, Habs.
Qed.

Lemma snapshot_replaces_record_witness :
  dict_get "cam1"
    (devices (on_system_state (VInt 2)
                (VDict ([] ++ ("cam1", VDict [("motion", VBool true)]) :: []))
                (on_state_change "cam1" "on" (VBool false) cam1_state)))
  = Some (dict_set "id" (VStr "cam1") [("motion", VBool true)]).
Proof. exact (snapshot_replaces_record _ [] [] "cam1" _ _ eq_refl). Defined.

Lemma fold_upsert_filter items ds :
  fold_left upsert_entry (List.filter entry_is_mapping items) ds
  = fold_left upsert_entry items ds.
Proof.
  revert ds. induction items as [|[k v] items IH]; intros ds; simpl; [reflexivity|].
  destruct v; simpl; apply IH.
Qed.

(** X9: the entries of a snapshot whose value is not a mapping are skipped:
    the snapshot has the effect of the snapshot without them.  It still
    sets [last_update], also when no entry is left. *)
Theorem snapshot_skips_non_mappings (now : value) (items : dict value) (s : state) :
  on_system_state now (VDict items) s
  = on_system_state now (VDict (List.filter entry_is_mapping items)) s /\
  (List.filter entry_is_mapping items = [] ->
   on_system_state now (VDict items) s = set_last_update now s).
Proof.
  unfold on_system_state. rewrite fold_upsert_filter. split; [reflexivity|].
  intros Hnone. rewrite <- fold_upsert_filter, Hnone. simpl.
  destruct s; reflexivity.
Qed.

Lemma snapshot_skips_non_mappings_witness :
  on_system_state (VInt 2) (VDict [("cam1", VNone); ("lamp", VInt 3)]) cam1_state
  = set_last_update (VInt 2) cam1_state.
Proof.
  exact (proj2 (snapshot_skips_non_mappings (VInt 2) [("cam1", VNone); ("lamp", VInt 3)]
                  cam1_state) eq_refl).
Defined.

(** ** The handler never fails outside the camera listing *)









(** ** Login and start-up *)

Lemma remove_all_from_clean old s :
  Py.contains old s = false -> Py.remove_all_from O old s = s.
Proof.
  induction s as [|c s IH]; [reflexivity|].
  cbn [Py.contains Py.remove_all_from]. intros Hc.
  apply orb_false_iff in Hc as [Hp Hc]. rewrite Hp, (IH Hc). reflexivity.
Qed.

(** X12: the token is the authorization value without its [Bearer ] prefix:
    removing every [Bearer ] from [Bearer ] followed by a token that holds
    none gives the token back. *)
Theorem bearer_prefix_removed (tok : string) :
  Py.contains "Bearer " tok = false ->
  token_of (VDict [("authorization", VStr ("Bearer " +:+ tok))]) = Return tok.
Proof.
  intros Hc. unfold token_of. simpl dict_get. cbn [default]. f_equal.
  unfold Py.remove_all.
  change ("Bearer " +:+ tok) with (String "B" ("earer " +:+ tok)).
  cbn [Py.remove_all_from].
  replace (String.prefix "Bearer " (String "B" ("earer " +:+ tok))) with true
    by (symmetry; apply (startswith_app "Bearer " tok)).
  simpl. apply remove_all_from_clean, Hc.
Qed.

Lemma bearer_prefix_removed_witness :
  token_of (VDict [("authorization", VStr ("Bearer " +:+ "t0k"))]) = Return "t0k".
Proof. exact (bearer_prefix_removed "t0k" eq_refl). Defined.

(** X13: the login returns a result only for a 2xx reply with a JSON body in
    which [error] does not occur; an HTTP error status, a body that is not
    JSON, a body with an [error] entry and a network failure all raise. *)
Theorem login_returns_iff (reply : http_reply) (result : value) :
  login_to_scrypted reply = Return result <->
  reply = Http2xx (Some result) /\ py_in "error" result = Some false.
Proof.
  split.
  - destruct reply as [[r|]|code body [[]|]|e]; simpl; try discriminate.
    destruct (py_in "error" r) as [[]|] eqn:Hin; try discriminate.
    + destruct r; try discriminate.
      destruct (dict_get "error" items); discriminate.
    + intros [= ->]. split; [reflexivity|exact Hin].
  - intros [-> Hin]. unfold login_to_scrypted. rewrite Hin. reflexivity.
Qed.

Lemma run_keeps_login evs s :
  token (run evs s) = token s /\ host (run evs s) = host s /\
  connected (run evs s) = link_flag evs (connected s).
Proof.
  revert s. induction evs as [|ev evs IH]; intros s; simpl; [tauto|].
  destruct (IH (handle s ev)) as (Ht & Hh & Hc). unfold run in *.
  rewrite Ht, Hh, Hc. unfold link_flag. simpl.
  destruct ev as [| |now data|k p v]; simpl; try tauto.
  - destruct data; simpl; tauto.
  - unfold on_state_change. destruct (dict_get k (devices s)); simpl; tauto.
Qed.

(** X14: the connectivity flag is decided by the connect and disconnect
    events alone: after any sequence of events it is what the last of them
    set, device events never change it, and no event changes the token or
    the host. *)
Theorem connected_follows_link_events (evs : list sio_event) (s : state) :
  connected (run evs s) = link_flag evs (connected s) /\
  token (run evs s) = token s /\
  host (run evs s) = host s.
Proof. destruct (run_keeps_login evs s) as (Ht & Hh & Hc). tauto. Qed.

(** X15: after a successful login in full mode the state holds the token and
    the host for the rest of the run, whatever the socket session does;
    a login result without an [authorization] entry is accepted with the
    empty string as token. *)
Theorem login_stores_token (a : args) (e : env) (login_result : value) (tok : string) :
  arg_mode a = mode_full ->
  login_to_scrypted (login_reply e) = Return login_result ->
  token_of login_result = Return tok ->
  token (st (main a e)) = Some tok /\
  host (st (main a e)) = Some (arg_host a) /\
  (forall items, dict_get "authorization" items = None ->
                 token_of (VDict items) = Return "").
Proof.
  intros Hmode Hlogin Htok.
  assert (Hnone : forall items, dict_get "authorization" items = None ->
                                token_of (VDict items) = Return "").
  { intros items Hget. unfold token_of. rewrite Hget. reflexivity. }
  unfold main, connect_socketio.
  rewrite Hmode, Hlogin, Htok.
  destruct (HAS_SOCKETIO e); [|repeat split; solve [reflexivity|exact Hnone]].
  pose proof (session_state (script e) (set_login tok (arg_host a) scrypted_state)) as Hs.
  destruct (session (script e) (set_login tok (arg_host a) scrypted_state))
    as [[s' out] c].
  destruct Hs as [-> _]. simpl.
  destruct (run_keeps_login (delivered (script e))
              (set_login tok (arg_host a) scrypted_state)) as (Ht & Hh & _).
  rewrite Ht, Hh. repeat split; solve [reflexivity|exact Hnone].
Qed.

Lemma login_stores_token_witness :
  token (st (main (default_args mode_full)
                  {| login_reply := good_login; HAS_SOCKETIO := true;
                     script := [Deliver SioConnect; Resume; Deliver SioDisconnect] |}))
  = Some "t0k".
Proof.
  refine (proj1 (login_stores_token (default_args mode_full) _
                   (VDict [("authorization", VStr "Bearer t0k")]) "t0k" _ _ _)).
  all: reflexivity.
Defined.

(** X16: without python-socketio the full mode logs in, sets the
    connectivity flag to true, and returns at once: the process ends with
    status 0 and the facade stops serving, with an empty device store. *)
Theorem limited_mode_exits (a : args) (e : env) (login_result : value) (tok : string) :
  arg_mode a = mode_full ->
  login_to_scrypted (login_reply e) = Return login_result ->
  token_of login_result = Return tok ->
  HAS_SOCKETIO e = false ->
  connected (st (main a e)) = true /\
  devices (st (main a e)) = [] /\
  exit_status (main a e) = Some 0 /\
  serving (main a e) = false.
Proof.
  intros Hmode Hlogin Htok Hsio. unfold main, connect_socketio.
  rewrite Hmode, Hlogin, Htok, Hsio. repeat split; reflexivity.
Qed.

Lemma limited_mode_exits_witness :
  serving (main (default_args mode_full)
                {| login_reply := good_login; HAS_SOCKETIO := false;
                   script := [Deliver SioConnect] |})
  = false.
Proof.
  refine (proj2 (proj2 (proj2
            (limited_mode_exits (default_args mode_full) _
               (VDict [("authorization", VStr "Bearer t0k")]) "t0k" _ _ _ _)))).
  all: reflexivity.
Defined.



(** ** Snapshots and earlier listings *)

Lemma deref_fold_upsert items h a :
  (a < length (Heap.objects h))%nat ->
  Heap.deref (fold_left Heap.upsert_entry items h) a = Heap.deref h a /\
  (length (Heap.objects h) <= length (Heap.objects (fold_left Heap.upsert_entry items h)))%nat.
Proof.
  revert h. induction items as [|[k v] items IH]; intros h Ha; simpl; [split; [reflexivity|lia]|].
  destruct v; try (apply IH; exact Ha).
  set (h' := {| Heap.objects := Heap.objects h ++ [dict_set "id" (VStr k) items0];
                Heap.bindings := dict_set k (length (Heap.objects h)) (Heap.bindings h) |}).
  assert (Ha' : (a < length (Heap.objects h'))%nat).
  { unfold h'. simpl. rewrite length_app. simpl. lia. }
  destruct (IH h' Ha') as [Hd Hl]. split.
  - rewrite Hd. apply HeapFacts.deref_app_old, Ha.
  - unfold h' in Hl at 1. simpl in Hl. rewrite length_app in Hl. simpl in Hl. lia.
Qed.

(** X18: a full snapshot never changes a record object that an earlier
    listing holds: it binds the device ids to new objects, so the records
    read through a list taken before the snapshot are the records of
    before, unlike after an incremental event. *)
Theorem snapshot_leaves_listed_objects (h : Heap.hstate) (data : value) :
  Heap.inv h ->
  Heap.dump (Heap.on_system_state data h) (Heap.list_values h)
  = Heap.dump h (Heap.list_values h).
Proof.
  intros [_ Hin]. unfold Heap.dump. apply map_ext_in. intros a Ha.
  destruct data; try reflexivity. simpl.
  apply deref_fold_upsert.
  rewrite Forall_forall in Hin. apply Hin, list_elem_of_In, Ha.
Qed.

Lemma snapshot_leaves_listed_objects_witness :
  Heap.dump (Heap.on_system_state (VDict [("cam1", VDict [("motion", VBool true)])])
                                  cam1_heap)
            (Heap.list_values cam1_heap)
  = Heap.dump cam1_heap (Heap.list_values cam1_heap).
Proof.
  apply snapshot_leaves_listed_objects.
  apply (HeapFacts.inv_fold_upsert _ Heap.empty), HeapFacts.inv_empty.
Defined.

(** ** The Ollama bridge *)

Lemma map_seq_shift (base : Z) (k n start : nat) :
  map (fun i => Some (VInt (base + Z.of_nat k + Z.of_nat i))) (seq start n)
  = map (fun i => Some (VInt (base + Z.of_nat i))) (seq (k + start) n).
Proof.
  revert start. induction n as [|n IH]; intros start; simpl; [reflexivity|].
  f_equal.
  - f_equal. f_equal. lia.
  - rewrite IH. f_equal. f_equal. lia.
Qed.

Lemma numbered_from_app base r1 r2 :
  numbered_from base r1 ->
  numbered_from (base + Z.of_nat (length r1)) r2 ->
  numbered_from base (r1 ++ r2).
Proof.
  unfold numbered_from. intros H1 H2.
  rewrite List.map_app, length_app, List.seq_app, List.map_app, H1, H2.
  f_equal. rewrite map_seq_shift. f_equal. f_equal. lia.
Qed.

Lemma evolves_refl w : evolves false w w.
Proof.
  exists [], [], []. rewrite !app_nil_r. unfold attempts. simpl. rewrite Z.add_0_r.
  repeat split; try reflexivity. discriminate.
Qed.

Lemma evolves_trans failed w1 w2 w3 :
  evolves false w1 w2 -> evolves failed w2 w3 -> evolves failed w1 w3.
Proof.
  intros (r1 & p1 & l1 & Hs1 & Hi1 & Hn1 & Hp1 & Ht1 & Hb1 & _ & Hq1 & Hl1)
         (r2 & p2 & l2 & Hs2 & Hi2 & Hn2 & Hp2 & Ht2 & Hb2 & Hf2 & Hq2 & Hl2).
  exists (r1 ++ r2), (p1 ++ p2), (l1 ++ l2).
  unfold attempts in *. rewrite Z.add_0_r in Hi1.
  split; [rewrite Hs2, Hs1, app_assoc; reflexivity|].
  split; [rewrite Hi2, Hi1, length_app, Nat2Z.inj_add; lia|].
  split; [apply numbered_from_app; [exact Hn1|rewrite <- Hi1; exact Hn2]|].
  split; [rewrite Hp2, Hp1, length_app, drop_drop; reflexivity|].
  split; [congruence|]. split; [congruence|].
  split; [intros Hf; rewrite <- Hb1; apply Hf2, Hf|].
  split; [rewrite Hq2, Hq1, app_assoc; reflexivity|].
  rewrite Hl2, Hl1, app_assoc; reflexivity.
Qed.

Lemma evolves_send method params w : evolves false w (after_send method params w).
Proof.
  exists [Ollama.request (Ollama.request_id (Ollama.mcp w) + 1) method params], [], [].
  rewrite !app_nil_r. unfold attempts. simpl.
  repeat split; try reflexivity; try discriminate.
  all: destruct (Ollama.pending (Ollama.mcp w)); reflexivity.
Qed.

Lemma evolves_broken w : next_write_breaks w = true -> evolves true w (after_broken_write w).
Proof.
  intros Hb. exists [], [], []. rewrite !app_nil_r. unfold attempts. simpl.
  repeat split; try reflexivity. intros _. exact Hb.
Qed.

Section OllamaFacts.
Variable json_loads : string -> option value.
Variable json_dumps : value -> string.
Variable ollama : value -> outcome value.

#[local] Abbreviation call_tool := (Ollama.call_tool json_loads).
#[local] Abbreviation _send := (Ollama._send json_loads).
#[local] Abbreviation tool_loop := (Ollama.tool_loop json_loads json_dumps).
#[local] Abbreviation process_command := (Ollama.process_command json_loads json_dumps ollama).

Lemma steps_ret {A} (a : A) : steps (Ollama.ret a).
Proof. intros w. exists false. split; [apply evolves_refl|discriminate]. Qed.

Lemma steps_lift {A} (o : outcome A) : steps (Ollama.lift o).
Proof. intros w. exists false. split; [apply evolves_refl|discriminate]. Qed.

Lemma steps_bind {A B} (m : Ollama.M A) (k : A -> Ollama.M B) :
  steps m -> (forall a, steps (k a)) -> steps (Ollama.bind m k).
Proof.
  intros Hm Hk w. unfold Ollama.bind. destruct (Hm w) as (failed & Hev & Hraise).
  destruct (m w) as [w1 [a|e]]; cbn [fst snd] in *.
  - destruct failed; [specialize (Hraise eq_refl); discriminate|].
    destruct (Hk a w1) as (failed & Hev2 & Hraise2). exists failed.
    split; [apply (evolves_trans _ _ w1); assumption|exact Hraise2].
  - exists failed. split; [exact Hev|].
    intros Hf. specialize (Hraise Hf). injection Hraise as ->. reflexivity.
Qed.

Lemma steps_if {A} (b : bool) (m1 m2 : Ollama.M A) :
  steps m1 -> steps m2 -> steps (if b then m1 else m2).
Proof. destruct b; tauto. Qed.

(** The two ways of [_send]: the write raises, or the request goes out. *)
Lemma send_cases method params w :
  if next_write_breaks w
  then _send method params w = (after_broken_write w, Raise Ollama.broken_pipe)
  else fst (_send method params w) = after_send method params w.
Proof.
  unfold next_write_breaks, Ollama._send.
  destruct (Ollama.broken (Ollama.mcp w) (Ollama.request_id (Ollama.mcp w) + 1));
    reflexivity.
Qed.

Lemma steps_send method params : steps (_send method params).
Proof.
  intros w. pose proof (send_cases method params w) as H.
  destruct (next_write_breaks w) eqn:Hb.
  - exists true. rewrite H. split; [apply evolves_broken, Hb|reflexivity].
  - exists false. rewrite H. split; [apply evolves_send|discriminate].
Qed.

Lemma call_tool_cases name arguments w :
  if next_write_breaks w
  then call_tool name arguments w = (after_broken_write w, Raise Ollama.broken_pipe)
  else fst (call_tool name arguments w)
       = after_send "tools/call" (tool_params name arguments) w.
Proof.
  pose proof (send_cases "tools/call" (tool_params name arguments) w) as H.
  unfold Ollama.call_tool, Ollama.bind. fold (tool_params name arguments).
  destruct (next_write_breaks w); [rewrite H; reflexivity|].
  rewrite (surjective_pairing (_send _ _ w)), H.
  set (w1 := after_send _ _ w).
  destruct (snd (_send _ _ w)) as [response|e]; [|reflexivity].
  repeat (unfold Ollama.lift, Ollama.ret, Ollama.bind;
          match goal with
          | |- context [if ?b then _ else _] => destruct b
          | |- context [match ?o with Return _ => _ | Raise _ => _ end] => destruct o
          end; try reflexivity).
Qed.

Lemma call_tool_returns name arguments w w1 result :
  call_tool name arguments w = (w1, Return result) ->
  w1 = after_send "tools/call" (tool_params name arguments) w.
Proof.
  intros Hcall. pose proof (call_tool_cases name arguments w) as H.
  destruct (next_write_breaks w); rewrite Hcall in H; [discriminate|exact H].
Qed.

Lemma steps_call_tool name arguments : steps (call_tool name arguments).
Proof.
  intros w. pose proof (call_tool_cases name arguments w) as H.
  destruct (next_write_breaks w) eqn:Hb.
  - exists true. rewrite H. split; [apply evolves_broken, Hb|reflexivity].
  - exists false. rewrite H. split; [apply evolves_send|discriminate].
Qed.

Lemma steps_print line : steps (Ollama.print line).
Proof.
  intros w. exists false. split; [|discriminate].
  exists [], [], [line]. rewrite !app_nil_r. unfold attempts. simpl. rewrite Z.add_0_r.
  repeat split; try reflexivity. discriminate.
Qed.

Lemma steps_chat messages tools : steps (Ollama.chat_with_ollama ollama messages tools).
Proof.
  intros w. exists false. split; [|discriminate].
  unfold Ollama.chat_with_ollama. simpl.
  eexists [], [_], []. rewrite !app_nil_r. unfold attempts. simpl. rewrite Z.add_0_r.
  repeat split; try reflexivity. discriminate.
Qed.

Lemma steps_tool_loop tool_calls messages : steps (tool_loop tool_calls messages).
Proof.
  revert messages. induction tool_calls as [|tool_call rest IH]; intros messages; simpl.
  - apply steps_ret.
  - repeat (apply steps_bind; [first [apply steps_lift|apply steps_print|apply steps_call_tool]|intros ?]).
    apply IH.
Qed.

Lemma steps_process_command user_input : steps (process_command user_input).
Proof.
  unfold Ollama.process_command.
  repeat first
    [ apply steps_ret | apply steps_lift | apply steps_chat | apply steps_tool_loop
    | apply steps_if
    | apply steps_bind; [|intros ?] ].
Qed.

(** X19: whatever Ollama and the MCP process answer, and whether the command
    returns or raises, [process_command] only adds to the world: the
    requests it writes carry the next ids in order, one line of the
    process's output is consumed per request written, posts and printed
    lines are appended, and the client is not terminated.  The counter
    grows by the number of requests written, and by one more when a write
    found the process gone: the command then raises [BrokenPipeError], and
    that write was its last. *)
Theorem command_only_evolves (user_input : string) (w : Ollama.world) :
  exists failed : bool,
    evolves failed w (fst (process_command user_input w)) /\
    (failed = true -> snd (process_command user_input w) = Raise Ollama.broken_pipe).
Proof. apply steps_process_command. Qed.

(** X20: [call_tool] makes one attempt to write a request.  When the write
    raises, [call_tool] raises [BrokenPipeError] with the counter
    incremented, nothing written and no line read.  When the write
    succeeds, exactly one request, numbered with the next id, is written
    and one line consumed, whatever the reply is and also when decoding it
    raises; arguments that are false in Python (none, an empty mapping) are
    sent as an empty mapping. *)
Theorem call_tool_writes_one_request (name arguments : value) (w : Ollama.world) :
  if Ollama.broken (Ollama.mcp w) (Ollama.request_id (Ollama.mcp w) + 1)
  then call_tool name arguments w = (after_broken_write w, Raise Ollama.broken_pipe)
  else fst (call_tool name arguments w)
       = after_send "tools/call"
           (Some (VDict [("name", name);
                         ("arguments",
                          if Ollama.py_bool arguments then arguments else VDict [])])) w.
Proof. apply call_tool_cases. Qed.

Lemma call_tool_result name arguments w :
  snd (call_tool name arguments w)
  = and_then (snd (_send "tools/call" (tool_params name arguments) w))
             (tool_answer json_loads).
Proof.
  unfold Ollama.call_tool, Ollama.bind. fold (tool_params name arguments).
  destruct (_send "tools/call" (tool_params name arguments) w) as [w1 [response|e]];
    [|reflexivity].
  unfold tool_answer, and_then. cbn [snd].
  repeat (unfold Ollama.lift, Ollama.ret, Ollama.bind;
          match goal with
          | |- context [if ?b then _ else _] => destruct b
          | |- context [match ?o with Return _ => _ | Raise _ => _ end] => destruct o
          end; try reflexivity).
Qed.

(** X21: [call_tool] answers [{"error": "No response from MCP"}], without
    raising, when the process has closed its output, when the reply is
    false in Python, when the reply is a mapping without [result], and when
    the result is a mapping whose [content] is missing or empty. *)
Theorem call_tool_no_response (name arguments : value) (w : Ollama.world)
    (response : value) :
  snd (_send "tools/call" (tool_params name arguments) w) = Return response ->
  Ollama.py_bool response = false \/
  (exists items,
      response = VDict items /\
      (dict_get "result" items = None \/
       exists result,
         dict_get "result" items = Some (VDict result) /\
         Ollama.py_bool (default (VList []) (dict_get "content" result)) = false)) ->
  snd (call_tool name arguments w) = Return no_response /\
  (Ollama.pending (Ollama.mcp w) = [] -> response = VNone).
Proof.
  intros Hsend Hcase. split.
  - rewrite call_tool_result, Hsend. cbn [and_then]. unfold tool_answer.
    destruct Hcase as [Hfalse|(items & -> & Hcase)]; [rewrite Hfalse; reflexivity|].
    destruct (Ollama.py_bool (VDict items)); [|reflexivity].
    unfold Ollama.contains, py_in, dict_has.
    destruct Hcase as [Hnone|(result & Hres & Hcontent)].
    + rewrite Hnone. reflexivity.
    + rewrite Hres. cbn [and_then]. unfold Ollama.getitem. rewrite Hres.
      cbn [and_then]. unfold Ollama.get. cbn [and_then]. rewrite Hcontent. reflexivity.
  - intros Hpending. unfold Ollama._send in Hsend.
    destruct (Ollama.broken (Ollama.mcp w) (Ollama.request_id (Ollama.mcp w) + 1));
      [discriminate|].
    cbn [snd] in Hsend. rewrite Hpending in Hsend. injection Hsend as <-. reflexivity.
Qed.

(** X22: when the reply is a mapping whose [result] is a mapping with a
    [content] list that starts with a mapping, [call_tool] returns the
    decoded [text] of that first item, [{}] when it has no [text], and
    ignores the other items; it raises when the text does not decode. *)
Theorem call_tool_reads_first_text (name arguments : value) (w : Ollama.world)
    (items result item : dict value) (more : list value) :
  snd (_send "tools/call" (tool_params name arguments) w) = Return (VDict items) ->
  dict_get "result" items = Some (VDict result) ->
  dict_get "content" result = Some (VList (VDict item :: more)) ->
  snd (call_tool name arguments w)
  = Ollama.loads json_loads (default (VStr "{}") (dict_get "text" item)).
Proof.
  intros Hsend Hres Hcontent.
  rewrite call_tool_result, Hsend. cbn [and_then]. unfold tool_answer.
  assert (Htrue : Ollama.py_bool (VDict items) = true).
  { destruct items; [discriminate|reflexivity]. }
  rewrite Htrue. unfold Ollama.contains, py_in, dict_has. rewrite Hres.
  cbn [and_then]. unfold Ollama.getitem. rewrite Hres.
  cbn [and_then]. unfold Ollama.get at 1. rewrite Hcontent. reflexivity.
Qed.
End OllamaFacts.

Lemma call_tool_no_response_witness :
  snd (Ollama.call_tool two_texts (VStr "list_devices") VNone silent_world)
  = Return no_response /\
  (Ollama.pending (Ollama.mcp silent_world) = [] -> VNone = VNone).
Proof.
  refine (call_tool_no_response two_texts (VStr "list_devices") VNone silent_world VNone _ _).
  - reflexivity.
  - left. reflexivity.
Defined.

Lemma call_tool_reads_first_text_witness :
  snd (Ollama.call_tool two_texts (VStr "list_devices") VNone answering_world)
  = Return (VList [VStr "Lamp"]).
Proof.
  refine (call_tool_reads_first_text two_texts (VStr "list_devices") VNone answering_world
            [("result", VDict [("content", VList [VDict [("type", VStr "text");
                                                         ("text", VStr "devices")]])])]
            [("content", VList [VDict [("type", VStr "text"); ("text", VStr "devices")]])]
            [("type", VStr "text"); ("text", VStr "devices")] [] _ _ _);
    reflexivity.
Defined.

Section OllamaCommands.
Variable json_loads : string -> option value.
Variable json_dumps : value -> string.
Variable ollama : value -> outcome value.

#[local] Abbreviation call_tool := (Ollama.call_tool json_loads).
#[local] Abbreviation tool_loop := (Ollama.tool_loop json_loads json_dumps).
#[local] Abbreviation process_command := (Ollama.process_command json_loads json_dumps ollama).

Lemma first_chat user_input w :
  Ollama.chat_with_ollama ollama (Ollama.first_messages user_input)
    (Some Ollama.HOMEKIT_TOOLS) w
  = (after_post (first_payload user_input) w, ollama (first_payload user_input)).
Proof. reflexivity. Qed.

Lemma final_chat messages w :
  Ollama.chat_with_ollama ollama messages None w
  = (after_post (final_payload messages) w, ollama (final_payload messages)).
Proof. reflexivity. Qed.

Lemma bind_lift {A B} (o : outcome A) (k : A -> Ollama.M B) w :
  Ollama.bind (Ollama.lift o) k w
  = match o with Return a => k a w | Raise e => (w, Raise e) end.
Proof. destruct o; reflexivity. Qed.

Lemma contains_dict k items : Ollama.contains k (VDict items) = Return (dict_has k items).
Proof. reflexivity. Qed.

Lemma get_dict items k dflt :
  Ollama.get (VDict items) k dflt = Return (default dflt (dict_get k items)).
Proof. reflexivity. Qed.

Lemma wanted_step {B} message (k : value -> Ollama.M B) w :
  Ollama.bind
    (if dict_has "tool_calls" message
     then Ollama.lift (Ollama.getitem (VDict message) "tool_calls")
     else Ollama.ret (VBool false)) k w
  = k (default (VBool false) (dict_get "tool_calls" message)) w.
Proof.
  unfold dict_has, Ollama.getitem.
  destruct (dict_get "tool_calls" message); reflexivity.
Qed.

(** X23: when the reply of Ollama is a mapping without [message], the
    command answers with the error text after that one post: nothing is
    written to the MCP process and nothing is printed. *)
Theorem command_without_message (user_input : string) (w : Ollama.world)
    (reply : dict value) :
  ollama (first_payload user_input) = Return (VDict reply) ->
  dict_get "message" reply = None ->
  process_command user_input w
  = (after_post (first_payload user_input) w,
     Return (VStr "Error communicating with Ollama")).
Proof.
  intros Hreply Hnone. unfold Ollama.process_command.
  unfold Ollama.bind at 1. rewrite first_chat, Hreply.
  rewrite bind_lift, contains_dict. unfold dict_has. rewrite Hnone. reflexivity.
Qed.

(** X24: when the message of the reply asks for no tool (no [tool_calls]
    entry, or one that is false in Python), the command returns the
    [content] of the message, or its stock answer when there is none,
    after that one post and without any traffic to the MCP process. *)
Theorem command_without_tool_calls (user_input : string) (w : Ollama.world)
    (reply message : dict value) :
  ollama (first_payload user_input) = Return (VDict reply) ->
  dict_get "message" reply = Some (VDict message) ->
  Ollama.py_bool (default (VBool false) (dict_get "tool_calls" message)) = false ->
  process_command user_input w
  = (after_post (first_payload user_input) w,
     Return (default (VStr "I'm not sure how to help with that.")
                     (dict_get "content" message))).
Proof.
  intros Hreply Hmessage Hcalls. unfold Ollama.process_command.
  unfold Ollama.bind at 1. rewrite first_chat, Hreply.
  rewrite bind_lift, contains_dict. unfold dict_has. rewrite Hmessage.
  cbv beta iota delta [negb].
  rewrite bind_lift. unfold Ollama.getitem at 1. rewrite Hmessage. cbv beta iota.
  rewrite bind_lift, contains_dict. cbv beta iota.
  rewrite wanted_step. cbv beta. rewrite Hcalls, get_dict. reflexivity.
Qed.

Lemma bind_print {B} line (k : unit -> Ollama.M B) w :
  Ollama.bind (Ollama.print line) k w = k tt (fst (Ollama.print line w)).
Proof. reflexivity. Qed.

Lemma request_name_tool id name arguments :
  request_name (Ollama.request id "tools/call" (tool_params name arguments)) = Some name.
Proof. reflexivity. Qed.

Lemma tool_loop_returns tool_calls messages w w' messages' :
  tool_loop tool_calls messages w = (w', Return messages') ->
  exists results requests,
    messages' = messages ++ map (Ollama.tool_message json_dumps) results /\
    length results = length tool_calls /\
    Ollama.posted w' = Ollama.posted w /\
    Ollama.sent (Ollama.mcp w') = Ollama.sent (Ollama.mcp w) ++ requests /\
    map request_name requests = map call_name tool_calls.
Proof.
  revert messages w w' messages'.
  induction tool_calls as [|tool_call rest IH]; intros messages w w' messages'.
  - intros [= <- <-]. exists [], []. rewrite !app_nil_r. repeat split; reflexivity.
  - cbn [Ollama.tool_loop]. rewrite bind_lift.
    destruct (Ollama.getitem tool_call "function") as [function|] eqn:Hf; [|discriminate].
    rewrite bind_lift.
    destruct (Ollama.getitem function "name") as [name|] eqn:Hn; [|discriminate].
    rewrite bind_lift.
    destruct (Ollama.get function "arguments" (VDict [])) as [args|]; [|discriminate].
    rewrite bind_print. unfold Ollama.bind at 1.
    destruct (call_tool name (Ollama.decode_args json_loads args) _)
      as [w1 [result|]] eqn:Hcall; [|discriminate].
    apply (call_tool_returns json_loads) in Hcall. subst w1. intros Hrest.
    destruct (IH _ _ _ _ Hrest) as (results & requests & -> & Hlen & Hposted & Hsent & Hnames).
    exists (result :: results),
           (Ollama.request (Ollama.request_id (Ollama.mcp w) + 1) "tools/call"
              (tool_params name (Ollama.decode_args json_loads args)) :: requests).
    cbn [after_send Ollama.with_mcp Ollama.mcp Ollama.sent Ollama.posted Ollama.print
         fst Ollama.request_id] in Hsent, Hposted.
    split; [rewrite <- app_assoc; reflexivity|].
    split; [cbn [length]; rewrite Hlen; reflexivity|].
    split; [exact Hposted|].
    split; [rewrite Hsent, <- app_assoc; reflexivity|].
    cbn [map]. rewrite Hnames, request_name_tool. unfold call_name. rewrite Hf, Hn.
    reflexivity.
Qed.

(** X25: when the message of the reply holds a non-empty list of tool calls
    and the command returns, it has written one request to the MCP process
    per tool call, in order and for the tool each call names, and has
    posted twice to Ollama: the second post carries no tools, and its
    messages are the system and user messages, the assistant message, and
    one tool message per call. *)
Theorem command_with_tool_calls (user_input : string) (w w' : Ollama.world)
    (reply message : dict value) (tool_calls : list value) (answer : value) :
  ollama (first_payload user_input) = Return (VDict reply) ->
  dict_get "message" reply = Some (VDict message) ->
  dict_get "tool_calls" message = Some (VList tool_calls) ->
  tool_calls <> [] ->
  process_command user_input w = (w', Return answer) ->
  exists results requests,
    length results = length tool_calls /\
    Ollama.posted w'
    = Ollama.posted w
      ++ [first_payload user_input;
          final_payload (Ollama.first_messages user_input ++ [VDict message]
                         ++ map (Ollama.tool_message json_dumps) results)] /\
    Ollama.sent (Ollama.mcp w') = Ollama.sent (Ollama.mcp w) ++ requests /\
    map request_name requests = map call_name tool_calls.
Proof.
  intros Hreply Hmessage Hcalls Hsome. unfold Ollama.process_command.
  unfold Ollama.bind at 1. rewrite first_chat, Hreply.
  rewrite bind_lift, contains_dict. unfold dict_has. rewrite Hmessage.
  cbv beta iota delta [negb].
  rewrite bind_lift. unfold Ollama.getitem at 1. rewrite Hmessage. cbv beta iota.
  rewrite bind_lift, contains_dict. cbv beta iota.
  rewrite wanted_step. cbv beta. rewrite Hcalls. cbn [default]. unfold id.
  replace (Ollama.py_bool (VList tool_calls)) with true
    by (destruct tool_calls; [contradiction|reflexivity]).
  cbv beta iota. rewrite bind_lift. cbn [Ollama.iterate]. unfold Ollama.bind at 1.
  destruct (tool_loop tool_calls _ _) as [w1 [messages|]] eqn:Hloop; [|discriminate].
  destruct (tool_loop_returns _ _ _ _ _ Hloop)
    as (results & requests & -> & Hlen & Hposted & Hsent & Hnames).
  unfold Ollama.bind at 1. rewrite final_chat.
  intros Hrest. exists results, requests.
  assert (Hw' : Ollama.posted w' = Ollama.posted (after_post (final_payload
                  ((Ollama.first_messages user_input ++ [VDict message])
                   ++ map (Ollama.tool_message json_dumps) results)) w1)
                /\ Ollama.mcp w' = Ollama.mcp w1).
  { destruct (ollama (final_payload _)) as [final|]; [|discriminate].
    rewrite bind_lift in Hrest.
    destruct (Ollama.contains "message" final) as [[]|]; try discriminate.
    - rewrite bind_lift in Hrest.
      destruct (Ollama.getitem final "message") as [final_message|]; [|discriminate].
      unfold Ollama.lift in Hrest.
      destruct (Ollama.get final_message "content" (VStr "Done.")); [|discriminate].
      injection Hrest as <- _. split; reflexivity.
    - injection Hrest as <- _. split; reflexivity. }
  destruct Hw' as [Hp Hm]. rewrite Hp, Hm, Hsent. cbn [after_post Ollama.posted Ollama.mcp].
  rewrite Hposted. cbn [after_post Ollama.posted]. rewrite <- !app_assoc.
  repeat split; try assumption; reflexivity.
Qed.
End OllamaCommands.

Lemma command_without_message_witness :
  Ollama.process_command two_texts one_text ollama_without_message "lights?" answering_world
  = (after_post (first_payload "lights?") answering_world,
     Return (VStr "Error communicating with Ollama")).
Proof.
  refine (command_without_message two_texts one_text ollama_without_message "lights?"
            answering_world reply_without_message _ _); reflexivity.
Defined.

Lemma command_without_tool_calls_witness :
  Ollama.process_command two_texts one_text ollama_plain "hello" answering_world
  = (after_post (first_payload "hello") answering_world,
     Return (default (VStr "I'm not sure how to help with that.")
                     (dict_get "content" plain_message))).
Proof.
  refine (command_without_tool_calls two_texts one_text ollama_plain "hello"
            answering_world [("message", VDict plain_message)] plain_message _ _ _);
    reflexivity.
Defined.

Lemma command_with_tool_calls_witness :
  exists results requests,
    length results = length [list_devices_call] /\
    Ollama.posted (fst lights_run)
    = Ollama.posted answering_world
      ++ [first_payload "lights?";
          final_payload (Ollama.first_messages "lights?" ++ [VDict calling_message]
                         ++ map (Ollama.tool_message one_text) results)] /\
    Ollama.sent (Ollama.mcp (fst lights_run))
    = Ollama.sent (Ollama.mcp answering_world) ++ requests /\
    map request_name requests = map call_name [list_devices_call].
Proof.
  refine (command_with_tool_calls two_texts one_text ollama_with_tools "lights?"
            answering_world (fst lights_run)
            [("message", VDict calling_message)] calling_message [list_devices_call]
            (VStr "You have one lamp.") _ _ _ _ _).
  - reflexivity.
  - reflexivity.
  - reflexivity.
  - discriminate.
  - vm_compute. reflexivity.
Defined.

(** ** Whole runs of the Ollama bridge *)

Lemma numbered_evolves failed w w' :
  numbered false (Ollama.mcp w) -> evolves failed w w' -> numbered failed (Ollama.mcp w').
Proof.
  intros [Hid Hnum] (requests & posts & lines & Hs & Hi & Hn & _).
  unfold numbered, attempts in *. rewrite Z.add_0_r in Hid.
  rewrite Hs, Hi, Hid, length_app, Nat2Z.inj_add.
  split; [lia|].
  apply numbered_from_app; [exact Hnum|].
  rewrite Z.add_0_l, <- Hid. exact Hn.
Qed.

Lemma evolves_terminated failed w w' :
  evolves failed w w' ->
  Ollama.terminated (Ollama.mcp w') = Ollama.terminated (Ollama.mcp w).
Proof. intros (requests & posts & lines & _ & _ & _ & _ & Ht & _). exact Ht. Qed.

Lemma evolves_say lines w : evolves false w (Ollama.say lines w).
Proof.
  exists [], [], lines. rewrite !app_nil_r. unfold attempts. simpl. rewrite Z.add_0_r.
  repeat split; try reflexivity. discriminate.
Qed.

Section OllamaMain.
Variable json_loads : string -> option value.
Variable json_dumps : value -> string.
Variable ollama : value -> outcome value.
Variable strip : string -> string.
Variable lower : string -> string.

#[local] Abbreviation process_command := (Ollama.process_command json_loads json_dumps ollama).
#[local] Abbreviation interactive :=
  (Ollama.interactive json_loads json_dumps ollama strip lower).
#[local] Abbreviation main := (Ollama.main json_loads json_dumps ollama strip lower).

Lemma steps_initialize : steps (Ollama._initialize json_loads).
Proof.
  unfold Ollama._initialize.
  repeat first [ apply steps_ret | apply steps_send | apply steps_bind; [|intros ?] ].
Qed.

(** The loop only lets the world evolve, and a write that raises ends it
    with that exception. *)
Lemma interactive_evolves keys w :
  exists failed : bool,
    evolves failed w (fst (interactive keys w)) /\
    (failed = true -> exists e, snd (interactive keys w) = Ollama.Failed e).
Proof.
  revert w. induction keys as [|[text|] keys IH]; intros w; cbn [Ollama.interactive].
  - exists false. split; [apply evolves_refl|discriminate].
  - destruct (String.eqb (strip text) ""); [apply IH|].
    destruct (existsb (String.eqb (lower (strip text))) _).
    { exists false. split; [apply evolves_refl|discriminate]. }
    destruct (steps_process_command json_loads json_dumps ollama (strip text) w)
      as (failed & Hc & Hraise).
    destruct (process_command (strip text) w) as [w1 [response|e]]; cbn [fst snd] in *.
    + destruct failed; [specialize (Hraise eq_refl); discriminate|].
      destruct (IH (fst (Ollama.print (Ollama.SayJarvis response true) w1)))
        as (failed & Hloop & Hfailed).
      exists failed. split; [|exact Hfailed].
      apply (evolves_trans _ _ w1); [exact Hc|].
      apply (evolves_trans _ _ (fst (Ollama.print (Ollama.SayJarvis response true) w1)));
        [apply (evolves_say [Ollama.SayJarvis response true])|exact Hloop].
    + exists failed. split; [exact Hc|]. intros _. exists e. reflexivity.
  - exists false. split; [apply evolves_refl|discriminate].
Qed.

(** What a run leaves of the world it started the subprocess in. *)
Lemma main_cases popen argv keys :
  match popen with
  | Raise _ =>
      Ollama.mcp (fst (main popen argv keys)) = Ollama.spawned Ollama.never_started /\
      snd (main popen argv keys) = 1
  | Return proc =>
      exists w (failed : bool),
        evolves failed (start_world proc) w /\
        Ollama.request_id (Ollama.mcp (fst (main popen argv keys)))
        = Ollama.request_id (Ollama.mcp w) /\
        Ollama.sent (Ollama.mcp (fst (main popen argv keys))) = Ollama.sent (Ollama.mcp w) /\
        (failed = true -> snd (main popen argv keys) = 1) /\
        Ollama.terminated (Ollama.mcp (fst (main popen argv keys)))
        = match snd (Ollama._initialize json_loads (start_world proc)) with
          | Raise _ => false
          | Return _ =>
              match argv with
              | [] => true
              | _ :: _ => snd (main popen argv keys) =? 0
              end
          end
  end.
Proof.
  unfold Ollama.main. destruct popen as [proc|e]; [|split; reflexivity].
  change (Ollama.with_mcp (Ollama.spawned proc) _) with (start_world proc).
  destruct (steps_initialize (start_world proc)) as (failed0 & Hinit & Hraise0).
  destruct (Ollama._initialize json_loads (start_world proc)) as [w1 [[]|e]];
    cbn [fst snd] in *.
  - destruct failed0; [specialize (Hraise0 eq_refl); discriminate|].
    set (w2 := Ollama.say _ w1).
    assert (H2 : evolves false (start_world proc) w2).
    { apply (evolves_trans _ _ w1); [exact Hinit|apply evolves_say]. }
    destruct argv as [|arg argv].
    + set (w2' := Ollama.say _ w2).
      destruct (interactive_evolves keys w2') as (failed & Hloop & Hfailed).
      assert (H3 : evolves failed (start_world proc) (fst (interactive keys w2'))).
      { apply (evolves_trans _ _ w2); [exact H2|].
        apply (evolves_trans _ _ w2'); [apply evolves_say|exact Hloop]. }
      exists (fst (interactive keys w2')), failed. split; [exact H3|].
      destruct (interactive keys w2') as [w3 [| |e]]; cbn [fst snd] in *;
        repeat split; try reflexivity;
        intros Hf; destruct (Hfailed Hf) as [e' He']; discriminate.
    + set (command := String.concat " " (arg :: argv)).
      set (w2' := Ollama.say _ w2).
      destruct (steps_process_command json_loads json_dumps ollama command w2')
        as (failed & Hc & Hraise).
      assert (H3 : evolves failed (start_world proc) (fst (process_command command w2'))).
      { apply (evolves_trans _ _ w2); [exact H2|].
        apply (evolves_trans _ _ w2'); [apply evolves_say|exact Hc]. }
      exists (fst (process_command command w2')), failed. split; [exact H3|].
      destruct (process_command command w2') as [w3 [response|e]]; cbn [fst snd] in *.
      * repeat split; try reflexivity. intros Hf. specialize (Hraise Hf). discriminate.
      * repeat split; try reflexivity.
        rewrite (evolves_terminated _ _ _ H3). reflexivity.
  - exists w1, failed0. split; [exact Hinit|]. repeat split; try reflexivity.
    cbn. rewrite (evolves_terminated _ _ _ Hinit). reflexivity.
Qed.

(** X26: at the end of every run of the program, whatever the subprocess,
    Ollama and the user did, the k-th request written to the MCP process
    carries the id k, and the counter of the client is the number of
    requests written, or one more than that when the last write found the
    process gone: the run then ends with exit status 1. *)
Theorem every_run_numbers_requests (popen : outcome Ollama.subprocess)
    (argv : list string) (keys : list Ollama.keyboard) :
  exists failed : bool,
    numbered failed (Ollama.mcp (fst (main popen argv keys))) /\
    (failed = true -> snd (main popen argv keys) = 1).
Proof.
  pose proof (main_cases popen argv keys) as Hcases.
  destruct popen as [proc|e].
  - destruct Hcases as (w & failed & Hev & Hid & Hsent & Hstatus & _).
    exists failed. split; [|exact Hstatus].
    assert (Hw : numbered failed (Ollama.mcp w)).
    { apply (numbered_evolves _ (start_world proc)); [split; reflexivity|exact Hev]. }
    destruct Hw as [Hw1 Hw2]. unfold numbered. rewrite Hid, Hsent. split; assumption.
  - destruct Hcases as [-> _]. exists false. split; [split; reflexivity|discriminate].
Qed.

(** X27: the subprocess is told to end exactly in these runs: the interactive
    mode after a successful start, however its loop ends (quit, interrupt,
    end of input or an exception), and the one-shot mode when the command
    returned.  It is left running when the start-up handshake raised and
    when the one-shot command raised. *)
Theorem subprocess_terminated_iff (popen : outcome Ollama.subprocess)
    (argv : list string) (keys : list Ollama.keyboard) :
  Ollama.terminated (Ollama.mcp (fst (main popen argv keys)))
  = match popen with
    | Raise _ => false
    | Return proc =>
        match snd (Ollama._initialize json_loads (start_world proc)) with
        | Raise _ => false
        | Return _ =>
            match argv with
            | [] => true
            | _ :: _ => snd (main popen argv keys) =? 0
            end
        end
    end.
Proof.
  pose proof (main_cases popen argv keys) as Hcases.
  destruct popen as [proc|e].
  - destruct Hcases as (w & failed & _ & _ & _ & _ & Ht). exact Ht.
  - destruct Hcases as [-> _]. reflexivity.
Qed.

(** X28: a typed line that strips to nothing is skipped without any request,
    and nothing typed after a line that strips to quit, exit or q (in any
    letter case) is read. *)
Theorem idle_and_quit_lines (before after : list Ollama.keyboard) (blank quit : string)
    (w : Ollama.world) :
  strip blank = "" ->
  strip quit <> "" ->
  existsb (String.eqb (lower (strip quit))) ["quit"; "exit"; "q"] = true ->
  interactive (before ++ Ollama.Line blank :: after) w = interactive (before ++ after) w /\
  interactive (before ++ Ollama.Line quit :: after) w
  = interactive (before ++ [Ollama.Line quit]) w.
Proof.
  intros Hblank Hquit Hword.
  assert (Hq : String.eqb (strip quit) "" = false) by (apply String.eqb_neq, Hquit).
  revert w. induction before as [|[text|] before IH]; intros w; cbn [app Ollama.interactive].
  - rewrite Hblank, Hq, Hword. cbn. split; reflexivity.
  - destruct (String.eqb (strip text) ""); [apply IH|].
    destruct (existsb (String.eqb (lower (strip text))) _); [split; reflexivity|].
    destruct (process_command (strip text) w) as [w1 [response|e]];
      [apply IH|split; reflexivity].
  - split; reflexivity.
Qed.
End OllamaMain.

Lemma idle_and_quit_lines_witness :
  Ollama.interactive two_texts one_text ollama_plain id id
    ([Ollama.Line "hello"] ++ Ollama.Line "" :: [Ollama.Line "lights?"]) answering_world
  = Ollama.interactive two_texts one_text ollama_plain id id
      ([Ollama.Line "hello"] ++ [Ollama.Line "lights?"]) answering_world /\
  Ollama.interactive two_texts one_text ollama_plain id id
    ([Ollama.Line "hello"] ++ Ollama.Line "quit" :: [Ollama.Line "lights?"]) answering_world
  = Ollama.interactive two_texts one_text ollama_plain id id
      ([Ollama.Line "hello"] ++ [Ollama.Line "quit"]) answering_world.
Proof.
  refine (idle_and_quit_lines two_texts one_text ollama_plain id id
            [Ollama.Line "hello"] [Ollama.Line "lights?"] "" "quit" answering_world _ _ _).
  - reflexivity.
  - discriminate.
  - reflexivity.
Defined.

(** A process that is gone after the first request of the handshake: the
    counter is 2 with one request written, the run reports the failed
    connection and ends with status 1, and the process is not told to end.
    On a process that is gone when a tool is called, [call_tool] raises
    with the counter incremented and nothing written. *)
Lemma short_lived_run :
  let run := Ollama.main two_texts one_text ollama_plain id id (Return short_lived) [] [] in
  Ollama.request_id (Ollama.mcp (fst run)) = 2 /\
  length (Ollama.sent (Ollama.mcp (fst run))) = 1%nat /\
  Ollama.pending (Ollama.mcp (fst run)) = [] /\
  Ollama.terminated (Ollama.mcp (fst run)) = false /\
  Ollama.printed (fst run)
  = [Ollama.Say "Connecting to HomeMCPBridge...";
     Ollama.SayError "Error connecting to MCP: " Ollama.broken_pipe;
     Ollama.Say ("Make sure HomeMCPBridge is at: " +:+ Ollama.MCP_PATH)] /\
  snd run = 1 /\
  Ollama.call_tool two_texts (VStr "list_devices") VNone dead_world
  = (after_broken_write dead_world, Raise Ollama.broken_pipe).
Proof. repeat split; reflexivity. Qed.
